(** * Approval workflow engine of the expense management backend

    A shallow embedding of [backend/app/services/approval_service.py]
    (class [ApprovalService]), of the collaborators it calls
    ([notification_service.create_notification], [audit_service.log_action])
    and of the [PUT /approvals/{approval_id}] endpoint of
    [backend/app/api/approvals.py].

    The SQLAlchemy session is modelled as explicit state: the committed
    tables, the tables as the session sees them (committed rows plus the
    objects added or mutated since the last commit), and a script that says
    which of the coming commits the database refuses.  Every service method
    is a computation in a state-and-exception monad over that session. *)

From Stdlib Require Import ZArith QArith Qround Floats Uint63.
From stdpp Require Import base option list gmap strings pretty sorting.

Local Open Scope string_scope.
Local Open Scope list_scope.
Local Open Scope Z_scope.

(** ** Enumerations of [app/schemas.py] *)

Module ExpenseStatus.
Inductive t := draft | pending | approved | rejected.
#[global] Instance eq_dec : EqDecision t.
Proof. solve_decision. Defined.
End ExpenseStatus.

Module ApprovalType.
Inductive t := compulsory | necessary.
#[global] Instance eq_dec : EqDecision t.
Proof. solve_decision. Defined.
End ApprovalType.

Module ApprovalStatus.
Inductive t := pending | approved | rejected.
#[global] Instance eq_dec : EqDecision t.
Proof. solve_decision. Defined.

(** [ApprovalStatus.<member>.value] *)
Definition value (s : t) : string :=
  match s with
  | pending => "pending"
  | approved => "approved"
  | rejected => "rejected"
  end.
End ApprovalStatus.

Module UserRole.
Inductive t := admin | manager | employee.
#[global] Instance eq_dec : EqDecision t.
Proof. solve_decision. Defined.
End UserRole.

Module NotificationType.
Inductive t :=
  invite | password_reset | expense_submitted
| expense_approved | expense_rejected | overdue_approval.
End NotificationType.

Module AuditAction.
Inductive t := create | update | delete | approve | reject.
End AuditAction.

(** ** Entities of [app/models.py]

    Primary and foreign keys are UUIDs; only their equality is used, so
    they are integers here.  A [datetime] is its number of microseconds
    since the epoch. *)

Definition UUID := Z.
Definition datetime := Z.

Module User.
Record t := mk {
  id : UUID;
  company_id : UUID;
  role : UserRole.t;
  is_active : bool
}.
End User.

Module ApprovalRule.
Record t := mk {
  id : UUID;
  company_id : UUID;
  category_id : option UUID;
  user_id : UUID;
  approval_type : ApprovalType.t;
  is_sequential : bool;
  order_index : Z;
  is_active : bool
}.
End ApprovalRule.

Module Expense.
Record t := mk {
  id : UUID;
  company_id : UUID;
  user_id : UUID;
  category_id : UUID;
  description : string;
  status : ExpenseStatus.t
}.

Definition set_status (s : ExpenseStatus.t) (e : t) : t :=
  mk (id e) (company_id e) (user_id e) (category_id e) (description e) s.
End Expense.

Module Approval.
Record t := mk {
  id : UUID;
  expense_id : UUID;
  approver_id : UUID;
  status : ApprovalStatus.t;
  comments : option string;
  approved_at : option datetime;
  created_at : datetime
}.

Definition set_status (s : ApprovalStatus.t) (a : t) : t :=
  mk (id a) (expense_id a) (approver_id a) s (comments a) (approved_at a)
     (created_at a).
Definition set_comments (c : option string) (a : t) : t :=
  mk (id a) (expense_id a) (approver_id a) (status a) c (approved_at a)
     (created_at a).
Definition set_approved_at (d : option datetime) (a : t) : t :=
  mk (id a) (expense_id a) (approver_id a) (status a) (comments a) d
     (created_at a).
End Approval.

Module Notification.
Record t := mk {
  user_id : UUID;
  type : NotificationType.t;
  title : string;
  message : string
}.
End Notification.

Module AuditLog.
Record t := mk {
  company_id : UUID;
  user_id : UUID;
  action : AuditAction.t;
  resource_type : string;
  resource_id : UUID
}.
End AuditLog.

(** ** The database and the session *)

Record Tables := mkTables {
  users : list User.t;
  approval_rules : list ApprovalRule.t;
  expenses : list Expense.t;
  approvals : list Approval.t;
  notifications : list Notification.t;
  audit_logs : list AuditLog.t
}.

Definition with_expenses (f : list Expense.t → list Expense.t) (t : Tables) :=
  mkTables (users t) (approval_rules t) (f (expenses t)) (approvals t)
           (notifications t) (audit_logs t).
Definition with_approvals
    (f : list Approval.t → list Approval.t) (t : Tables) :=
  mkTables (users t) (approval_rules t) (expenses t) (f (approvals t))
           (notifications t) (audit_logs t).
Definition with_notifications
    (f : list Notification.t → list Notification.t) (t : Tables) :=
  mkTables (users t) (approval_rules t) (expenses t) (approvals t)
           (f (notifications t)) (audit_logs t).
Definition with_audit_logs
    (f : list AuditLog.t → list AuditLog.t) (t : Tables) :=
  mkTables (users t) (approval_rules t) (expenses t) (approvals t)
           (notifications t) (f (audit_logs t)).

(** [committed] is what every other session observes; [working] is this
    session's view.  [faults] scripts the coming commits: [true] makes the
    next commit fail with an operational error (connection lost, disk
    full); past the end of the script commits are not disturbed.
    [uuid_seed] feeds the [default=uuid4] of new primary keys. *)
Record Session := mkSession {
  committed : Tables;
  working : Tables;
  faults : list bool;
  uuid_seed : UUID
}.

Inductive Exception :=
| OperationalError
| IntegrityError
| MultipleResultsFound
| AttributeError
| HTTPException (status_code : Z) (detail : string).

(** [str(e)] *)
Definition str (e : Exception) : string :=
  match e with
  | OperationalError => "connection to server was lost"
  | IntegrityError =>
      "duplicate key value violates unique constraint"
  | MultipleResultsFound =>
      "Multiple rows were found when one or none was required"
  | AttributeError => "'NoneType' object has no attribute"
  | HTTPException _ d => d
  end.

Inductive Outcome (A : Type) :=
| Ok (a : A)
| Raised (e : Exception).
Arguments Ok {A} a.
Arguments Raised {A} e.

Definition DB (A : Type) : Type := Session → Outcome A * Session.

#[global] Instance DB_ret : MRet DB := λ A a s, (Ok a, s).
#[global] Instance DB_bind : MBind DB := λ A B k m s,
  match m s with
  | (Ok a, s') => k a s'
  | (Raised e, s') => (Raised e, s')
  end.
Definition raise {A} (e : Exception) : DB A := λ s, (Raised e, s).
(** [try: body except Exception as e: handler e] *)
Definition try_except {A} (body : DB A) (handler : Exception → DB A) : DB A :=
  λ s, match body s with
       | (Ok a, s') => (Ok a, s')
       | (Raised e, s') => handler e s'
       end.

Definition get_working : DB Tables := λ s, (Ok (working s), s).
Definition modify_working (f : Tables → Tables) : DB unit :=
  λ s, (Ok (),
        mkSession (committed s) (f (working s)) (faults s) (uuid_seed s)).
(** [default=uuid4] *)
Definition uuid4 : DB UUID :=
  λ s, (Ok (uuid_seed s),
        mkSession (committed s) (working s) (faults s) (uuid_seed s + 1)).

(** [UniqueConstraint("expense_id", "approver_id",
    name="uq_approvals_expense_approver")] *)
Definition uq_approvals_expense_approver (l : list Approval.t) : bool :=
  bool_decide
    (NoDup (map (λ a, (Approval.expense_id a, Approval.approver_id a)) l)).

(** [await db.commit()]: flushes the session's rows and makes them the
    committed ones, unless the database refuses. *)
Definition db_commit : DB unit :=
  λ s, match faults s with
       | true :: fs =>
           (Raised OperationalError,
            mkSession (committed s) (working s) fs (uuid_seed s))
       | _ =>
           let fs := tail (faults s) in
           if uq_approvals_expense_approver (approvals (working s))
           then (Ok (), mkSession (working s) (working s) fs (uuid_seed s))
           else (Raised IntegrityError,
                 mkSession (committed s) (working s) fs (uuid_seed s))
       end.

(** [await db.rollback()] *)
Definition db_rollback : DB unit :=
  λ s, (Ok (), mkSession (committed s) (committed s) (faults s) (uuid_seed s)).

(** [result.scalar_one_or_none()] *)
Definition scalar_one_or_none {A} (rows : list A) : DB (option A) :=
  match rows with
  | [] => mret None
  | [r] => mret (Some r)
  | _ => raise MultipleResultsFound
  end.

(** Mutating a loaded ORM object changes the session's row with the same
    primary key, in place. *)
Definition update_row {A} (key : A → UUID) (new : A) (rows : list A)
    : list A :=
  map (λ r, if bool_decide (key r = key new) then new else r) rows.

(** Attribute access on a relationship that may have loaded [None]. *)
Definition attr {A} (o : option A) : DB A :=
  match o with
  | Some x => mret x
  | None => raise AttributeError
  end.

(** [for x in l: body x] *)
Fixpoint for_each {A} (l : list A) (body : A → DB unit) : DB unit :=
  match l with
  | [] => mret ()
  | x :: l' => body x;; for_each l' body
  end.

(** [ORDER BY key] and [list.sort(key=...)]: ascending and stable. *)
Fixpoint insert_by {A} (key : A → Z) (x : A) (l : list A) : list A :=
  match l with
  | [] => [x]
  | y :: l' => if key x <=? key y then x :: l else y :: insert_by key x l'
  end.
Definition sort_by {A} (key : A → Z) (l : list A) : list A :=
  foldr (insert_by key) [] l.

(** [timedelta(days=n)] *)
Definition timedelta_days (n : Z) : Z := n * 86400000000.

(** ** Collaborators

    [notification_service.create_notification]: the row is added and the
    session committed at once; on failure the session is rolled back and
    the exception re-raised.  The e-mail that may follow is sent inside a
    [try] of its own that swallows every error and writes nothing, so it is
    left out. *)
Definition create_notification (user_id : UUID) (type : NotificationType.t)
    (title message : string) : DB Notification.t :=
  try_except
    (let notification := Notification.mk user_id type title message in
     modify_working (with_notifications (λ l, l ++ [notification]));;
     db_commit;;
     mret notification)
    (λ e, db_rollback;; raise e).

(** [audit_service.log_action] *)
Definition log_action (company_id user_id : UUID) (action : AuditAction.t)
    (resource_type : string) (resource_id : UUID) : DB AuditLog.t :=
  try_except
    (let audit_log :=
       AuditLog.mk company_id user_id action resource_type resource_id in
     modify_working (with_audit_logs (λ l, l ++ [audit_log]));;
     db_commit;;
     mret audit_log)
    (λ e, db_rollback;; raise e).

(** ** [class ApprovalService] *)

Record ApprovalService := mkApprovalService {
  overdue_threshold_days : Z
}.

(** [ApprovalService.__init__] and the module-level instance *)
Definition approval_service : ApprovalService := mkApprovalService 3.

Definition _get_approval_rules (category_id company_id : UUID)
    : DB (list ApprovalRule.t) :=
  t ← get_working;
  mret (sort_by ApprovalRule.order_index
          (filter (λ r, ApprovalRule.category_id r = Some category_id
                        ∧ ApprovalRule.company_id r = company_id
                        ∧ ApprovalRule.is_active r = true)
                  (approval_rules t))).

Definition _get_user (user_id : UUID) : DB (option User.t) :=
  t ← get_working;
  scalar_one_or_none (filter (λ u, User.id u = user_id) (users t)).

(** The body of the [for rule in approval_rules] loop of
    [create_approval_workflow]; [approvals] is the list built so far. *)
Fixpoint create_approvals (expense : Expense.t) (now : datetime)
    (rules : list ApprovalRule.t) (approvals : list Approval.t)
    : DB (list Approval.t) :=
  match rules with
  | [] => mret approvals
  | rule :: rules' =>
      if negb (ApprovalRule.is_active rule)
      then create_approvals expense now rules' approvals
      else
        approver ← _get_user (ApprovalRule.user_id rule);
        match approver with
        | Some approver =>
            if negb (User.is_active approver)
               || bool_decide (User.company_id approver
                               ≠ Expense.company_id expense)
            then create_approvals expense now rules' approvals
            else
              new_id ← uuid4;
              let approval :=
                Approval.mk new_id (Expense.id expense)
                  (ApprovalRule.user_id rule) ApprovalStatus.pending
                  None None now in
              modify_working (with_approvals (λ l, l ++ [approval]));;
              let approvals := approvals ++ [approval] in
              create_notification (ApprovalRule.user_id rule)
                NotificationType.expense_submitted
                "New Expense Approval Required"
                ("Expense '" +:+ Expense.description expense
                   +:+ "' requires your approval");;
              create_approvals expense now rules' approvals
        | None => create_approvals expense now rules' approvals
        end
  end.

(** The [try] block of [create_approval_workflow]. *)
Definition create_approval_workflow_try (expense : Expense.t) (now : datetime)
    : DB (list Approval.t) :=
  approval_rules ←
    _get_approval_rules (Expense.category_id expense)
                        (Expense.company_id expense);
  match approval_rules with
  | [] => mret []
  | _ =>
      let approval_rules := sort_by ApprovalRule.order_index approval_rules in
      approvals ← create_approvals expense now approval_rules [];
      db_commit;;
      log_action (Expense.company_id expense) (Expense.user_id expense)
        AuditAction.create "approval_workflow" (Expense.id expense);;
      mret approvals
  end.

Definition create_approval_workflow (expense : Expense.t) (now : datetime)
    : DB (list Approval.t) :=
  try_except (create_approval_workflow_try expense now)
             (λ e, db_rollback;; mret []).

(** *** Status aggregation *)

(** The grouping loop: each approval is filed under the type of the first
    rule whose [user_id] is its approver, and dropped when there is none. *)
Fixpoint group_approvals (rules : list ApprovalRule.t)
    (approvals : list Approval.t) : list Approval.t * list Approval.t :=
  match approvals with
  | [] => ([], [])
  | approval :: rest =>
      let '(compulsory_approvals, necessary_approvals) :=
        group_approvals rules rest in
      match find (λ r, bool_decide (ApprovalRule.user_id r
                                     = Approval.approver_id approval))
                 rules with
      | Some rule =>
          match ApprovalRule.approval_type rule with
          | ApprovalType.compulsory =>
              (approval :: compulsory_approvals, necessary_approvals)
          | ApprovalType.necessary =>
              (compulsory_approvals, approval :: necessary_approvals)
          end
      | None => (compulsory_approvals, necessary_approvals)
      end
  end.

(** The loop over [compulsory_approvals]: [Some st] when it returns [st],
    [None] when it runs to its end. *)
Fixpoint check_compulsory (compulsory_approvals : list Approval.t)
    : option ExpenseStatus.t :=
  match compulsory_approvals with
  | [] => None
  | approval :: rest =>
      match Approval.status approval with
      | ApprovalStatus.rejected => Some ExpenseStatus.rejected
      | ApprovalStatus.pending => Some ExpenseStatus.pending
      | ApprovalStatus.approved => check_compulsory rest
      end
  end.

(** [sum(1 for a in l if a.status == st)] *)
Definition count_status (st : ApprovalStatus.t) (l : list Approval.t) : nat :=
  length (filter (λ a, Approval.status a = st) l).

(** [(necessary_approved / total_necessary) * 100 if total_necessary > 0
    else 0].  Python computes it in binary64; the quotient and the product
    are taken exactly here, as rationals. *)
Definition approval_percentage (necessary_approved total_necessary : nat) : Q :=
  if (0 <? Z.of_nat total_necessary)%Z
  then (inject_Z (Z.of_nat necessary_approved)
          / inject_Z (Z.of_nat total_necessary) * inject_Z 100)%Q
  else inject_Z 0.

(** The same expression and its comparison with 60 as Python evaluates
    them, in binary64. *)
Definition float_of_nat (n : nat) : float :=
  PrimFloat.of_uint63 (Uint63.of_Z (Z.of_nat n)).
Definition approval_percentage_binary64
    (necessary_approved total_necessary : nat) : float :=
  if (0 <? Z.of_nat total_necessary)%Z
  then PrimFloat.mul
         (PrimFloat.div (float_of_nat necessary_approved)
                        (float_of_nat total_necessary))
         (float_of_nat 100)
  else float_of_nat 0.
Definition below_60_binary64 (necessary_approved total_necessary : nat)
    : bool :=
  PrimFloat.ltb
    (approval_percentage_binary64 necessary_approved total_necessary)
    (float_of_nat 60).
Definition below_60_exact (necessary_approved total_necessary : nat) : bool :=
  if Qlt_le_dec (approval_percentage necessary_approved total_necessary)
                (inject_Z 60)
  then true else false.

(** What [_calculate_expense_status] does with the rows of its two queries. *)
Definition expense_status_of (approvals : list Approval.t)
    (rules : list ApprovalRule.t) : ExpenseStatus.t :=
  match approvals with
  | [] => ExpenseStatus.pending
  | _ =>
      let '(compulsory_approvals, necessary_approvals) :=
        group_approvals rules approvals in
      match check_compulsory compulsory_approvals with
      | Some st => st
      | None =>
          let compulsory_approved :=
            count_status ApprovalStatus.approved compulsory_approvals in
          if (compulsory_approved <? length compulsory_approvals)%nat
          then ExpenseStatus.pending
          else
            match necessary_approvals with
            | [] => ExpenseStatus.approved
            | _ =>
                let necessary_approved :=
                  count_status ApprovalStatus.approved necessary_approvals in
                let total_necessary := length necessary_approvals in
                if Qlt_le_dec
                     (approval_percentage necessary_approved total_necessary)
                     (inject_Z 60)
                then ExpenseStatus.rejected
                else ExpenseStatus.approved
            end
      end
  end.

(** The two queries of [_calculate_expense_status]. *)
Definition approvals_of_expense (t : Tables) (expense : Expense.t)
    : list Approval.t :=
  filter (λ a, Approval.expense_id a = Expense.id expense) (approvals t).
Definition active_rules_of_category (t : Tables) (expense : Expense.t)
    : list ApprovalRule.t :=
  filter (λ r, ApprovalRule.category_id r = Some (Expense.category_id expense)
               ∧ ApprovalRule.is_active r = true)
         (approval_rules t).

Definition _calculate_expense_status (expense : option Expense.t)
    : DB ExpenseStatus.t :=
  try_except
    (expense ← attr expense;
     t ← get_working;
     mret (expense_status_of (approvals_of_expense t expense)
                             (active_rules_of_category t expense)))
    (λ e, mret ExpenseStatus.pending).

(** *** Decision processing *)

Definition process_approval (approval_id : UUID) (status : ApprovalStatus.t)
    (comments : option string) (approver : User.t) (now : datetime)
    : DB (bool * option string) :=
  try_except
    (t ← get_working;
     approval ← scalar_one_or_none
       (filter (λ a, Approval.id a = approval_id
                     ∧ Approval.approver_id a = User.id approver)
               (approvals t));
     match approval with
     | None => mret (false, Some "Approval not found or access denied")
     | Some approval =>
         if bool_decide (Approval.status approval ≠ ApprovalStatus.pending)
         then mret (false, Some "Approval has already been processed")
         else
           (* selectinload(Approval.expense) *)
           let expense :=
             head (filter (λ e, Expense.id e = Approval.expense_id approval)
                          (expenses t)) in
           let approval :=
             Approval.set_approved_at (Some now)
               (Approval.set_comments comments
                  (Approval.set_status status approval)) in
           modify_working (with_approvals (update_row Approval.id approval));;
           log_action (User.company_id approver) (User.id approver)
             (if bool_decide (status = ApprovalStatus.approved)
              then AuditAction.approve else AuditAction.reject)
             "approval" (Approval.id approval);;
           expense_status ← _calculate_expense_status expense;
           expense ← attr expense;
           let expense := Expense.set_status expense_status expense in
           modify_working (with_expenses (update_row Expense.id expense));;
           db_commit;;
           create_notification (Expense.user_id expense)
             (if bool_decide (status = ApprovalStatus.approved)
              then NotificationType.expense_approved
              else NotificationType.expense_rejected)
             ("Expense " +:+ (if bool_decide (status = ApprovalStatus.approved)
                              then "Approved" else "Rejected"))
             ("Your expense '" +:+ Expense.description expense
                +:+ "' has been " +:+ ApprovalStatus.value status);;
           mret (true, None)
     end)
    (λ e, db_rollback;; mret (false, Some (str e))).

(** *** Overdue monitor *)

(** The body of the [for approval in overdue_approvals] loop; [t] holds
    the rows the query loaded ([selectinload(Approval.expense)]). *)
Definition notify_overdue (t : Tables) (approval : Approval.t) : DB unit :=
  expense ← attr (head (filter (λ e, Expense.id e
                                     = Approval.expense_id approval)
                               (expenses t)));
  create_notification (Approval.approver_id approval)
    NotificationType.overdue_approval
    "Overdue Approval Required"
    ("Expense '" +:+ Expense.description expense
       +:+ "' approval is overdue");;
  mret ().

Definition check_overdue_approvals (self : ApprovalService) (now : datetime)
    : DB (list Approval.t) :=
  try_except
    (let cutoff_date := now - timedelta_days (overdue_threshold_days self) in
     t ← get_working;
     let overdue_approvals :=
       filter (λ a, Approval.status a = ApprovalStatus.pending
                    ∧ Approval.created_at a < cutoff_date)
              (approvals t) in
     for_each overdue_approvals (notify_overdue t);;
     mret overdue_approvals)
    (λ e, mret []).

(** *** Statistics *)

Record Statistics := mkStatistics {
  total_processed : nat;
  pending : nat;
  approved : nat;
  rejected : nat;
  average_approval_time_hours : Q
}.

(** [SELECT status, count(id) ... GROUP BY status]: one row per status
    that occurs, with the number of its occurrences. *)
Fixpoint bump (st : ApprovalStatus.t) (rows : list (ApprovalStatus.t * nat))
    : list (ApprovalStatus.t * nat) :=
  match rows with
  | [] => [(st, 1%nat)]
  | (st', n) :: rows' =>
      if bool_decide (st' = st) then (st', S n) :: rows'
      else (st', n) :: bump st rows'
  end.
Definition group_by_status (l : list Approval.t)
    : list (ApprovalStatus.t * nat) :=
  foldr (λ a rows, bump (Approval.status a) rows) [] l.

(** [{row.status.value: row.count for row in result}] *)
Definition status_counts_of (rows : list (ApprovalStatus.t * nat))
    : gmap string nat :=
  foldl (λ d row, <[ApprovalStatus.value row.1 := row.2]> d) ∅ rows.

(** The key and the value that a row contributes to that dictionary. *)
Definition dict_item (row : ApprovalStatus.t * nat) : string * nat :=
  (ApprovalStatus.value row.1, row.2).

(** [sum(d.values())] *)
Definition sum_values (d : gmap string nat) : nat :=
  sum_list (snd <$> map_to_list d).

(** [func.extract('epoch', interval)]: seconds. *)
Definition epoch (interval : Z) : Q := interval # 1000000.

(** [func.avg]: [NULL] over no rows. *)
Definition sql_avg (l : list Q) : option Q :=
  match l with
  | [] => None
  | _ => Some (foldr Qplus (inject_Z 0) l / inject_Z (Z.of_nat (length l)))%Q
  end.

(** [round(x, 2)]: to the nearest hundredth, ties to the even one. *)
Definition round_half_even (x : Q) : Z :=
  let f := Qfloor x in
  match ((x - inject_Z f) ?= 1 # 2)%Q with
  | Lt => f
  | Gt => f + 1
  | Eq => if Z.even f then f else f + 1
  end.
Definition round2 (x : Q) : Q :=
  Qmake (round_half_even (x * inject_Z 100)) 100.

(** The [date_filter] built from the optional bounds. *)
Definition date_filter (approver : User.t)
    (start_date end_date : option datetime) (a : Approval.t) : Prop :=
  Approval.approver_id a = User.id approver
  ∧ (if start_date is Some d then d ≤ Approval.created_at a else True)
  ∧ (if end_date is Some d then Approval.created_at a ≤ d else True).

#[global] Instance date_filter_dec approver start_date end_date a :
  Decision (date_filter approver start_date end_date a).
Proof. unfold date_filter; destruct start_date, end_date; apply _. Defined.

Definition get_approval_statistics (approver : User.t)
    (start_date end_date : option datetime) : DB Statistics :=
  try_except
    (t ← get_working;
     let status_counts :=
       status_counts_of
         (group_by_status
            (filter (date_filter approver start_date end_date)
                    (approvals t))) in
     let total_pending :=
       length (filter (λ a, Approval.approver_id a = User.id approver
                            ∧ Approval.status a = ApprovalStatus.pending)
                      (approvals t)) in
     let avg_time_result :=
       sql_avg
         (omap (λ a, if bool_decide
                          (Approval.approver_id a = User.id approver
                           ∧ Approval.status a ≠ ApprovalStatus.pending)
                     then d ← Approval.approved_at a;
                          Some (epoch (d - Approval.created_at a))
                     else None)
               (approvals t)) in
     let avg_approval_time_hours :=
       match avg_time_result with
       | Some x => if Qeq_bool x (inject_Z 0) then inject_Z 0 else x
       | None => inject_Z 0
       end in
     mret (mkStatistics
             (sum_values status_counts)
             total_pending
             (default 0%nat
                (status_counts !! ApprovalStatus.value ApprovalStatus.approved))
             (default 0%nat
                (status_counts !! ApprovalStatus.value ApprovalStatus.rejected))
             (round2 (avg_approval_time_hours / inject_Z 3600))))
    (λ e, mret (mkStatistics 0 0 0 0 (inject_Z 0))).

(** ** [PUT /approvals/{approval_id}] of [app/api/approvals.py] *)

Module ApprovalUpdate.
(** [comments] is [None] when the request body leaves the field out
    ([exclude_unset]); [status] is required. *)
Record t := mk {
  status : ApprovalStatus.t;
  comments : option (option string)
}.
End ApprovalUpdate.

Definition require_manager_or_admin (current_user : User.t) : DB User.t :=
  if bool_decide (User.role current_user = UserRole.manager
                  ∨ User.role current_user = UserRole.admin)
  then mret current_user
  else raise (HTTPException 403 "Manager or admin access required").

Definition update_approval (approval_id : UUID)
    (approval_data : ApprovalUpdate.t) (current_user : User.t)
    : DB Approval.t :=
  current_user ← require_manager_or_admin current_user;
  try_except
    (t ← get_working;
     approval ← scalar_one_or_none
       (filter (λ a, Approval.id a = approval_id
                     ∧ Approval.approver_id a = User.id current_user)
               (approvals t));
     match approval with
     | None => raise (HTTPException 404 "Approval not found or access denied")
     | Some approval =>
         (* for field, value in update_data.items(): setattr(...) *)
         let approval :=
           Approval.set_status (ApprovalUpdate.status approval_data) approval in
         let approval :=
           match ApprovalUpdate.comments approval_data with
           | Some c => Approval.set_comments c approval
           | None => approval
           end in
         modify_working (with_approvals (update_row Approval.id approval));;
         db_commit;;
         log_action (User.company_id current_user) (User.id current_user)
           AuditAction.update "approval" (Approval.id approval);;
         mret approval
     end)
    (λ e, match e with
          | HTTPException _ _ => raise e
          | _ => db_rollback;;
                 raise (HTTPException 500 "Failed to update approval")
          end).

(** ** Sample data

    One company (1) with one expense category (10); user 7 submits
    expense 500; user 100 is the compulsory approver of the category and
    users 201 to 205 its necessary approvers. *)

Definition sample_rule (i u : UUID) (ty : ApprovalType.t) : ApprovalRule.t :=
  ApprovalRule.mk i 1 (Some 10) u ty false i true.
Definition sample_approval (i u : UUID) (st : ApprovalStatus.t) : Approval.t :=
  Approval.mk i 500 u st None None 0.
Definition sample_user (u : UUID) : User.t :=
  User.mk u 1 UserRole.manager true.
Definition sample_expense : Expense.t :=
  Expense.mk 500 1 7 10 "taxi" ExpenseStatus.pending.
Definition sample_users : list User.t :=
  map sample_user [100; 201; 202; 203; 204; 205; 7].
Definition sample_rules : list ApprovalRule.t :=
  [ sample_rule 1 100 ApprovalType.compulsory;
    sample_rule 2 201 ApprovalType.necessary;
    sample_rule 3 202 ApprovalType.necessary;
    sample_rule 4 203 ApprovalType.necessary;
    sample_rule 5 204 ApprovalType.necessary;
    sample_rule 6 205 ApprovalType.necessary ].
Definition sample_tables (l : list Approval.t) : Tables :=
  mkTables sample_users sample_rules [sample_expense] l [] [].
(** A fresh session on committed tables, with no commit failure ahead. *)
Definition fresh_session (t : Tables) : Session := mkSession t t [] 1000.

(** Compulsory approved; necessary votes: 3 approved, 2 pending. *)
Definition three_of_five : Session :=
  fresh_session (sample_tables
    [ sample_approval 1 100 ApprovalStatus.approved;
      sample_approval 2 201 ApprovalStatus.approved;
      sample_approval 3 202 ApprovalStatus.approved;
      sample_approval 4 203 ApprovalStatus.approved;
      sample_approval 5 204 ApprovalStatus.pending;
      sample_approval 6 205 ApprovalStatus.pending ]).

(** Compulsory approved; necessary votes: 2 approved, 3 rejected. *)
Definition two_of_five : Session :=
  fresh_session (sample_tables
    [ sample_approval 1 100 ApprovalStatus.approved;
      sample_approval 2 201 ApprovalStatus.approved;
      sample_approval 3 202 ApprovalStatus.approved;
      sample_approval 4 203 ApprovalStatus.rejected;
      sample_approval 5 204 ApprovalStatus.rejected;
      sample_approval 6 205 ApprovalStatus.rejected ]).

(** Two compulsory approvers, 100 and 101: 100 has not decided yet and
    101 has rejected. *)
Definition two_compulsory_rules : list ApprovalRule.t :=
  [ sample_rule 1 100 ApprovalType.compulsory;
    sample_rule 2 101 ApprovalType.compulsory ].
Definition pending_then_rejected : Session :=
  fresh_session
    (mkTables (map sample_user [100; 101; 7]) two_compulsory_rules
       [sample_expense]
       [ sample_approval 1 100 ApprovalStatus.pending;
         sample_approval 2 101 ApprovalStatus.rejected ] [] []).
(** The same rows, returned by the query in the other order. *)
Definition rejected_then_pending : Session :=
  fresh_session
    (mkTables (map sample_user [100; 101; 7]) two_compulsory_rules
       [sample_expense]
       [ sample_approval 2 101 ApprovalStatus.rejected;
         sample_approval 1 100 ApprovalStatus.pending ] [] []).

(** No rule and no approval at all. *)
Definition no_rules : Session :=
  fresh_session (mkTables sample_users [] [sample_expense] [] [] []).

(** The workflow of expense 500 right after submission. *)
Definition all_pending : Session :=
  fresh_session (sample_tables
    [ sample_approval 1 100 ApprovalStatus.pending;
      sample_approval 2 201 ApprovalStatus.pending;
      sample_approval 3 202 ApprovalStatus.pending ]).


(** The approval as [process_approval] leaves it. *)
Definition decided (a : Approval.t) (status : ApprovalStatus.t)
    (comments : option string) (now : datetime) : Approval.t :=
  Approval.mk (Approval.id a) (Approval.expense_id a) (Approval.approver_id a)
    status comments (Some now) (Approval.created_at a).

(** Two active rules of category 10 name the same approver, 100. *)
Definition same_approver_twice : Session :=
  fresh_session
    (mkTables sample_users
       [ sample_rule 1 100 ApprovalType.compulsory;
         sample_rule 2 100 ApprovalType.necessary ]
       [sample_expense] [] [] []).

(** The six sample rules, no approval yet, and a database that accepts
    the first commit and refuses the second. *)
Definition second_commit_fails : Session :=
  mkSession (sample_tables []) (sample_tables []) [false; true] 1000.

(** Times of day in microseconds. *)
Definition day : Z := 86400000000.
Definition hour : Z := 3600000000.


(** Approver 100 has one pending approval created on day 1 and one
    approval created on day 2 and approved three hours later. *)
Definition two_old_approvals : Session :=
  fresh_session (mkTables sample_users sample_rules [sample_expense]
    [ Approval.mk 1 500 100 ApprovalStatus.pending None None (1 * day);
      Approval.mk 2 501 100 ApprovalStatus.approved None
        (Some (2 * day + 3 * hour)) (2 * day) ] [] []).

(** ** Listings of [class ApprovalService] *)

(** [query.offset(offset).limit(limit)]; the database refuses a negative
    bound. *)
Definition offset_limit {A} (offset limit : Z) (rows : list A) : DB (list A) :=
  if (offset <? 0) || (limit <? 0)
  then raise OperationalError
  else mret (take (Z.to_nat limit) (drop (Z.to_nat offset) rows)).

Definition get_pending_approvals (approver : User.t) (limit offset : Z)
    : DB (list Approval.t * nat) :=
  try_except
    (t ← get_working;
     (* .order_by(Approval.created_at.desc()) *)
     let query :=
       sort_by (λ a, - Approval.created_at a)
         (filter (λ a, Approval.approver_id a = User.id approver
                       ∧ Approval.status a = ApprovalStatus.pending)
                 (approvals t)) in
     let total_count :=
       length (filter (λ a, Approval.approver_id a = User.id approver
                            ∧ Approval.status a = ApprovalStatus.pending)
                      (approvals t)) in
     approvals ← offset_limit offset limit query;
     mret (approvals, total_count))
    (λ e, mret ([], 0%nat)).

Definition get_approval_history (approver : User.t) (limit offset : Z)
    : DB (list Approval.t * nat) :=
  try_except
    (t ← get_working;
     let rows :=
       filter (λ a, Approval.approver_id a = User.id approver
                    ∧ Approval.status a ≠ ApprovalStatus.pending)
              (approvals t) in
     (* .order_by(Approval.approved_at.desc()): rows without a decision
        time come first *)
     let query :=
       filter (λ a, Approval.approved_at a = None) rows
       ++ sort_by (λ a, - default 0 (Approval.approved_at a))
            (filter (λ a, Approval.approved_at a ≠ None) rows) in
     let total_count := length rows in
     approvals ← offset_limit offset limit query;
     mret (approvals, total_count))
    (λ e, mret ([], 0%nat)).

(** ** Dependencies of [app/auth.py] *)

Definition get_current_active_user (current_user : User.t) : DB User.t :=
  if negb (User.is_active current_user)
  then raise (HTTPException 400 "Inactive user")
  else mret current_user.

(** [Depends(require_manager_or_admin)], which depends on
    [get_current_active_user]. *)
Definition manager_or_admin (current_user : User.t) : DB User.t :=
  current_user ← get_current_active_user current_user;
  require_manager_or_admin current_user.

(** [except HTTPException: raise] followed by [except Exception:
    raise HTTPException(500, detail)]. *)
Definition http_errors {A} (detail : string) (body : DB A) : DB A :=
  try_except body
    (λ e, match e with
          | HTTPException _ _ => raise e
          | _ => raise (HTTPException 500 detail)
          end).

(** ** More of [app/api/approvals.py] *)

Module PaginationParams.
(** [page: int = Field(default=1, ge=1)] and
    [size: int = Field(default=20, ge=1, le=100)] *)
Record t := mk {
  page : Z;
  size : Z
}.
End PaginationParams.

(** The validation of the query parameters; a violation is answered with
    422 before the endpoint runs. *)
Definition validated (pagination : PaginationParams.t)
    : DB PaginationParams.t :=
  if (1 <=? PaginationParams.page pagination)
     && (1 <=? PaginationParams.size pagination)
     && (PaginationParams.size pagination <=? 100)
  then mret pagination
  else raise (HTTPException 422 "Unprocessable Entity").

Module PaginatedResponse.
Record t := mk {
  items : list Approval.t;
  total : nat;
  page : Z;
  size : Z;
  pages : Z
}.
End PaginatedResponse.

Module BulkResult.
Record t := mk {
  approval_id : UUID;
  status : string;
  error : option string
}.
End BulkResult.

Module BulkResponse.
Record t := mk {
  message : string;
  total : nat;
  successful : nat;
  failed : Z;
  results : list BulkResult.t
}.
End BulkResponse.

Module api_approvals.

(** [GET /approvals/pending]; the response items are the rows themselves. *)
Definition get_pending_approvals (current_user : User.t)
    (pagination : PaginationParams.t) : DB PaginatedResponse.t :=
  current_user ← manager_or_admin current_user;
  pagination ← validated pagination;
  try_except
    ('(approvals, total_count) ←
       get_pending_approvals current_user
         (PaginationParams.size pagination)
         ((PaginationParams.page pagination - 1)
          * PaginationParams.size pagination);
     mret (PaginatedResponse.mk approvals total_count
             (PaginationParams.page pagination)
             (PaginationParams.size pagination)
             ((Z.of_nat total_count + PaginationParams.size pagination - 1)
              / PaginationParams.size pagination)))
    (λ e, raise (HTTPException 500 "Failed to get pending approvals")).

(** [GET /approvals/history] *)
Definition get_approval_history (current_user : User.t)
    (pagination : PaginationParams.t) : DB PaginatedResponse.t :=
  current_user ← manager_or_admin current_user;
  pagination ← validated pagination;
  try_except
    ('(approvals, total_count) ←
       get_approval_history current_user
         (PaginationParams.size pagination)
         ((PaginationParams.page pagination - 1)
          * PaginationParams.size pagination);
     mret (PaginatedResponse.mk approvals total_count
             (PaginationParams.page pagination)
             (PaginationParams.size pagination)
             ((Z.of_nat total_count + PaginationParams.size pagination - 1)
              / PaginationParams.size pagination)))
    (λ e, raise (HTTPException 500 "Failed to get approval history")).

(** [POST /approvals/{approval_id}/approve]; the answer is the message and
    the approval id. *)
Definition approve_expense (approval_id : UUID) (comments : option string)
    (current_user : User.t) (now : datetime) : DB (string * UUID) :=
  current_user ← manager_or_admin current_user;
  http_errors "Failed to approve expense"
    ('(success, error_message) ←
       process_approval approval_id ApprovalStatus.approved comments
         current_user now;
     if negb success
     then raise (HTTPException 400 (default "" error_message))
     else mret ("Expense approved successfully", approval_id)).

(** [POST /approvals/{approval_id}/reject] *)
Definition reject_expense (approval_id : UUID) (comments : option string)
    (current_user : User.t) (now : datetime) : DB (string * UUID) :=
  current_user ← manager_or_admin current_user;
  http_errors "Failed to reject expense"
    ('(success, error_message) ←
       process_approval approval_id ApprovalStatus.rejected comments
         current_user now;
     if negb success
     then raise (HTTPException 400 (default "" error_message))
     else mret ("Expense rejected", approval_id)).

(** [GET /approvals/{approval_id}] *)
Definition get_approval (approval_id : UUID) (current_user : User.t)
    : DB Approval.t :=
  current_user ← get_current_active_user current_user;
  http_errors "Failed to get approval"
    (t ← get_working;
     approval ← scalar_one_or_none
       (filter (λ a, Approval.id a = approval_id) (approvals t));
     match approval with
     | None => raise (HTTPException 404 "Approval not found")
     | Some approval =>
         (* selectinload(Approval.expense) *)
         let expense :=
           head (filter (λ e, Expense.id e = Approval.expense_id approval)
                        (expenses t)) in
         (* the [and] chain reads [approval.expense] only for an employee *)
         if bool_decide (User.role current_user = UserRole.employee)
         then
           expense ← attr expense;
           if bool_decide (Expense.user_id expense ≠ User.id current_user)
              && bool_decide (Approval.approver_id approval
                              ≠ User.id current_user)
           then raise (HTTPException 403 "Access denied")
           else mret approval
         else mret approval
     end).

(** The loop of the two bulk endpoints: one call of [process_approval]
    and one result per id, in the order of the request. *)
Fixpoint bulk_process (status : ApprovalStatus.t) (approval_ids : list UUID)
    (comments : option string) (current_user : User.t) (now : datetime)
    (results : list BulkResult.t) (success_count : nat)
    : DB (list BulkResult.t * nat) :=
  match approval_ids with
  | [] => mret (results, success_count)
  | approval_id :: rest =>
      '(results, success_count) ←
        try_except
          ('(success, error_message) ←
             process_approval approval_id status comments current_user now;
           if (success : bool)
           then mret (results
                        ++ [BulkResult.mk approval_id
                              (ApprovalStatus.value status) None],
                      S success_count)
           else mret (results
                        ++ [BulkResult.mk approval_id "failed" error_message],
                      success_count))
          (λ e, mret (results
                        ++ [BulkResult.mk approval_id "failed" (Some (str e))],
                      success_count));
      bulk_process status rest comments current_user now results success_count
  end.

(** [POST /approvals/bulk-approve] *)
Definition bulk_approve_expenses (approval_ids : list UUID)
    (comments : option string) (current_user : User.t) (now : datetime)
    : DB BulkResponse.t :=
  current_user ← manager_or_admin current_user;
  try_except
    ('(results, success_count) ←
       bulk_process ApprovalStatus.approved approval_ids comments
         current_user now [] 0%nat;
     mret (BulkResponse.mk
             ("Bulk approval completed: " +:+ pretty success_count +:+ "/"
                +:+ pretty (length approval_ids) +:+ " successful")
             (length approval_ids) success_count
             (Z.of_nat (length approval_ids) - Z.of_nat success_count)
             results))
    (λ e, raise (HTTPException 500 "Failed to process bulk approval")).

(** [POST /approvals/bulk-reject] *)
Definition bulk_reject_expenses (approval_ids : list UUID)
    (comments : option string) (current_user : User.t) (now : datetime)
    : DB BulkResponse.t :=
  current_user ← manager_or_admin current_user;
  try_except
    ('(results, success_count) ←
       bulk_process ApprovalStatus.rejected approval_ids comments
         current_user now [] 0%nat;
     mret (BulkResponse.mk
             ("Bulk rejection completed: " +:+ pretty success_count +:+ "/"
                +:+ pretty (length approval_ids) +:+ " successful")
             (length approval_ids) success_count
             (Z.of_nat (length approval_ids) - Z.of_nat success_count)
             results))
    (λ e, raise (HTTPException 500 "Failed to process bulk rejection")).

End api_approvals.

(** ** [app/api/expenses.py]: submission and the approvals of an expense *)

Module api_expenses.

(** [POST /expenses/{expense_id}/submit].  Of the two columns the endpoint
    writes, [status] and [submitted_at], only [status] is a column of
    [Expense.t]. *)
Definition submit_expense (expense_id : UUID) (current_user : User.t)
    (now : datetime) : DB (string * UUID) :=
  current_user ← get_current_active_user current_user;
  try_except
    (t ← get_working;
     expense ← scalar_one_or_none
       (filter (λ e, Expense.id e = expense_id
                     ∧ Expense.company_id e = User.company_id current_user
                     ∧ Expense.user_id e = User.id current_user)
               (expenses t));
     match expense with
     | None => raise (HTTPException 404 "Expense not found")
     | Some expense =>
         if bool_decide (Expense.status expense ≠ ExpenseStatus.draft)
         then raise (HTTPException 400 "Expense is not in draft status")
         else
           let expense := Expense.set_status ExpenseStatus.pending expense in
           modify_working (with_expenses (update_row Expense.id expense));;
           db_commit;;
           create_approval_workflow expense now;;
           log_action (User.company_id current_user) (User.id current_user)
             AuditAction.update "expense" (Expense.id expense);;
           mret ("Expense submitted for approval", Expense.id expense)
     end)
    (λ e, match e with
          | HTTPException _ _ => raise e
          | _ => db_rollback;;
                 raise (HTTPException 500 "Failed to submit expense")
          end).


End api_expenses.

(** ** [app/tasks/notification_tasks.py]: the periodic overdue check *)

Module TaskResult.
(** [{'status': 'success', 'overdue_count': n}] or
    [{'status': 'error', 'message': str(e)}] *)
Inductive t :=
| success (overdue_count : nat)
| error (message : string).
End TaskResult.

Module notification_tasks.

(** The task runs the sweep of the service, which notifies every approver,
    and then notifies every approver of the returned approvals itself;
    [s] is the session the task opens. *)
Definition check_overdue_approvals (now : datetime) : DB TaskResult.t :=
  try_except
    (t ← get_working;
     overdue_approvals ← check_overdue_approvals approval_service now;
     for_each overdue_approvals (notify_overdue t);;
     mret (TaskResult.success (length overdue_approvals)))
    (λ e, mret (TaskResult.error (str e))).

End notification_tasks.

(** ** More sample data *)

(** Approver 100 has three pending approvals, created on days 1, 3 and 2,
    and two decided ones; approver 201 has one pending approval. *)
Definition listing_tables : Tables :=
  mkTables sample_users sample_rules
    [ sample_expense;
      Expense.mk 501 1 7 10 "hotel" ExpenseStatus.pending;
      Expense.mk 502 1 7 10 "train" ExpenseStatus.pending;
      Expense.mk 503 2 8 10 "lunch" ExpenseStatus.draft ]
    [ Approval.mk 1 500 100 ApprovalStatus.pending None None (1 * day);
      Approval.mk 2 501 100 ApprovalStatus.pending None None (3 * day);
      Approval.mk 3 502 100 ApprovalStatus.pending None None (2 * day);
      Approval.mk 4 503 100 ApprovalStatus.approved None
        (Some (5 * day)) (4 * day);
      Approval.mk 5 504 100 ApprovalStatus.rejected None None (4 * day);
      Approval.mk 6 500 201 ApprovalStatus.pending None None (1 * day) ]
    [] [].

(** An employee of company 1 who owns no expense. *)
Definition sample_employee : User.t := User.mk 9 1 UserRole.employee true.

(** Two compulsory approvers: 100 has approved and 101 has rejected. *)
Definition approved_then_rejected : Session :=
  fresh_session
    (mkTables (map sample_user [100; 101; 7]) two_compulsory_rules
       [sample_expense]
       [ sample_approval 1 100 ApprovalStatus.approved;
         sample_approval 2 101 ApprovalStatus.rejected ] [] []).

(** The rules of the category were removed after approver 100 rejected. *)
Definition rejected_without_rules : Session :=
  fresh_session
    (mkTables sample_users [] [sample_expense]
       [sample_approval 1 100 ApprovalStatus.rejected] [] []).

(** Everybody who was asked has approved. *)
Definition all_approved : Session :=
  fresh_session (sample_tables
    [ sample_approval 1 100 ApprovalStatus.approved;
      sample_approval 2 201 ApprovalStatus.approved ]).

(** The compulsory approver has approved; the two necessary approvers
    have not decided yet. *)
Definition necessary_undecided : Session :=
  fresh_session (sample_tables
    [ sample_approval 1 100 ApprovalStatus.approved;
      sample_approval 2 201 ApprovalStatus.pending;
      sample_approval 3 202 ApprovalStatus.pending ]).

(** The tables of [all_pending] on a database that accepts [n] commits and
    refuses the next one. *)
Definition failing_after (n : nat) : Session :=
  mkSession (working all_pending) (working all_pending)
    (replicate n false ++ [true]) 1000.

(** The approval listings of approver 100. *)
Definition listing : Session := fresh_session listing_tables.

(** User 7 has written expense 500 and not submitted it yet. *)
Definition draft_expense : Expense.t :=
  Expense.mk 500 1 7 10 "taxi" ExpenseStatus.draft.


(** ** Session invariants *)

(** [m] keeps [I]: a session that satisfies [I] still does once [m] has
    run, whether [m] returns or raises. *)
Definition keeps {A} (I : Session → Prop) (m : DB A) : Prop :=
  ∀ s, I s → I (m s).2.



(** ** Eligible rules *)


(** ** Lists, rows and commits *)

Section Rows.
Context {A : Type} (key : A → UUID).

Lemma filter_unique_row (P : A → Prop) `{!∀ x, Decision (P x)}
    (l : list A) (a : A) :
  NoDup (map key l) → a ∈ l → P a → (∀ x, P x → key x = key a) →
  filter P l = [a].
Proof.
  induction l as [|x l IH]; intros Hnd Hin Ha Hkey; [by inversion Hin|].
  cbn in Hnd. apply NoDup_cons in Hnd as [Hx Hnd].
  assert (Hnone : ∀ l', key a ∉ map key l' → filter P l' = []).
  { clear -Hkey. induction l' as [|y l' IH]; [done|]. intros Hn. cbn in Hn.
    apply not_elem_of_cons in Hn as [Hy Hn].
    rewrite filter_cons. destruct (decide (P y)) as [Hp|Hp]; [|by apply IH].
    by apply Hkey in Hp. }
  apply elem_of_cons in Hin as [->|Hin].
  - rewrite filter_cons, decide_True by done. f_equal. by apply Hnone.
  - rewrite filter_cons. destruct (decide (P x)) as [Hp|Hp].
    + exfalso. apply Hx. rewrite (Hkey _ Hp).
      apply list_elem_of_In, in_map, list_elem_of_In, Hin.
    + by apply IH.
Qed.

Lemma map_update_row {B} (f : A → B) (new : A) (l : list A) :
  (∀ r, r ∈ l → key r = key new → f new = f r) →
  map f (update_row key new l) = map f l.
Proof.
  induction l as [|x l IH]; intros H; [done|].
  unfold update_row in *. cbn. f_equal.
  - case_bool_decide; [|done]. apply H; [by left|done].
  - apply IH. intros; apply H; [by right|done].
Qed.

Lemma elem_of_update_row (new old : A) (l : list A) :
  old ∈ l → key old = key new → new ∈ update_row key new l.
Proof.
  intros Hin Hk. unfold update_row.
  apply list_elem_of_In, in_map_iff. exists old.
  rewrite bool_decide_eq_true_2 by done. split; [done|].
  by apply list_elem_of_In.
Qed.
End Rows.

(** ** Status aggregation *)

Lemma check_compulsory_all_approved (l : list Approval.t) :
  (∀ a, a ∈ l → Approval.status a ≠ ApprovalStatus.rejected
                ∧ Approval.status a ≠ ApprovalStatus.pending) →
  check_compulsory l = None
  ∧ count_status ApprovalStatus.approved l = length l.
Proof.
  unfold count_status. induction l as [|a l IH]; intros H; [done|].
  destruct (H a) as [Hr Hp]; [by left|].
  destruct IH as [IH1 IH2]; [intros; apply H; by right|].
  cbn [check_compulsory length]. rewrite filter_cons.
  destruct (Approval.status a) eqn:E; try done.
  rewrite decide_True by done. cbn [length]. by rewrite IH2.
Qed.

Lemma count_status_total (l : list Approval.t) :
  length l = (count_status ApprovalStatus.approved l
              + count_status ApprovalStatus.rejected l
              + count_status ApprovalStatus.pending l)%nat.
Proof.
  unfold count_status. induction l as [|a l IH]; [done|].
  rewrite !filter_cons. cbn [length]. rewrite IH.
  destruct (Approval.status a); repeat case_decide; try done; cbn; lia.
Qed.

(** The exact percentage is below 60 exactly when [100 * approved] is
    below [60 * total]. *)
Lemma approval_percentage_lt_60 (necessary_approved total_necessary : nat) :
  (0 < total_necessary)%nat →
  (approval_percentage necessary_approved total_necessary < inject_Z 60)%Q
  ↔ (100 * necessary_approved < 60 * total_necessary)%nat.
Proof.
  intros Hn. unfold approval_percentage.
  destruct (Z.ltb_spec 0 (Z.of_nat total_necessary)) as [_|]; [|lia].
  unfold Qlt, Qdiv, Qmult, Qinv, inject_Z. cbn [Qnum Qden].
  destruct (Z.of_nat total_necessary) as [|p|p] eqn:E; [lia| |lia].
  cbn [Qnum Qden]. lia.
Qed.

(** The binary64 comparison of the source and the exact one agree on
    every necessary group of up to 300 approvals. *)
Lemma below_60_binary64_exact :
  forallb (λ total,
             forallb (λ approved_count,
                        eqb (below_60_binary64 approved_count total)
                            (below_60_exact approved_count total))
                     (seq 0 (S total)))
          (seq 0 301)
  = true.
Proof. vm_compute. reflexivity. Qed.

Lemma expense_status_of_quorum (approvals : list Approval.t)
    (rules : list ApprovalRule.t)
    (compulsory_approvals necessary_approvals : list Approval.t) :
  group_approvals rules approvals
  = (compulsory_approvals, necessary_approvals) →
  (∀ a, a ∈ compulsory_approvals →
        Approval.status a ≠ ApprovalStatus.rejected
        ∧ Approval.status a ≠ ApprovalStatus.pending) →
  necessary_approvals ≠ [] →
  expense_status_of approvals rules
  = if Qlt_le_dec
         (approval_percentage
            (count_status ApprovalStatus.approved necessary_approvals)
            (length necessary_approvals))
         (inject_Z 60)
    then ExpenseStatus.rejected else ExpenseStatus.approved.
Proof.
  intros Hg Hc Hn. unfold expense_status_of.
  destruct approvals as [|a0 approvals]; [by inversion Hg; subst|].
  rewrite Hg. destruct (check_compulsory_all_approved _ Hc) as [-> ->].
  rewrite Nat.ltb_irrefl. by destruct necessary_approvals.
Qed.

(** C1: when no compulsory approval of the expense is rejected or pending
    and the necessary group is not empty, the aggregate is [rejected]
    exactly when [approvedCount / totalCount * 100] is strictly below 60
    and [approved] otherwise; [totalCount] counts every necessary approval,
    the pending ones included, and [approvedCount] only the approved ones. *)
Theorem necessary_quorum_decides (s : Session) (expense : Expense.t)
    (compulsory_approvals necessary_approvals : list Approval.t) :
  group_approvals (active_rules_of_category (working s) expense)
                  (approvals_of_expense (working s) expense)
  = (compulsory_approvals, necessary_approvals) →
  (∀ a, a ∈ compulsory_approvals →
        Approval.status a ≠ ApprovalStatus.rejected
        ∧ Approval.status a ≠ ApprovalStatus.pending) →
  necessary_approvals ≠ [] →
  let approvedCount :=
    length (filter (λ a, Approval.status a = ApprovalStatus.approved)
                   necessary_approvals) in
  let totalCount := length necessary_approvals in
  let below_60 :=
    (inject_Z (Z.of_nat approvedCount) / inject_Z (Z.of_nat totalCount)
       * inject_Z 100 < inject_Z 60)%Q in
  ∃ st, _calculate_expense_status (Some expense) s = (Ok st, s)
        ∧ (st = ExpenseStatus.rejected ↔ below_60)
        ∧ (st = ExpenseStatus.approved ↔ ¬ below_60)
        ∧ (below_60 ↔ (100 * approvedCount < 60 * totalCount)%nat)
        ∧ totalCount
          = (approvedCount
             + count_status ApprovalStatus.rejected necessary_approvals
             + count_status ApprovalStatus.pending necessary_approvals)%nat.
Proof.
  intros Hg Hc Hn approvedCount totalCount below_60.
  assert (Hpos : (0 < totalCount)%nat).
  { subst totalCount. destruct necessary_approvals; [done|cbn; lia]. }
  assert (Hpct : approval_percentage approvedCount totalCount
                 = (inject_Z (Z.of_nat approvedCount)
                    / inject_Z (Z.of_nat totalCount) * inject_Z 100)%Q).
  { unfold approval_percentage.
    destruct (Z.ltb_spec 0 (Z.of_nat totalCount)); [done|lia]. }
  pose proof (approval_percentage_lt_60 approvedCount totalCount Hpos) as Hlt.
  rewrite Hpct in Hlt. fold below_60 in Hlt.
  cbv [_calculate_expense_status try_except mbind DB_bind mret DB_ret attr
       get_working].
  rewrite (expense_status_of_quorum _ _ _ _ Hg Hc Hn).
  fold (count_status ApprovalStatus.approved necessary_approvals).
  change (count_status ApprovalStatus.approved necessary_approvals)
    with approvedCount.
  change (length necessary_approvals) with totalCount.
  rewrite Hpct.
  destruct (Qlt_le_dec _ _) as [Hb|Hb].
  - exists ExpenseStatus.rejected.
    split_and!; [done | intuition congruence | intuition congruence | exact Hlt
                | apply count_status_total].
  - apply Qle_not_lt in Hb.
    exists ExpenseStatus.approved.
    split_and!; [done | intuition congruence | intuition congruence | exact Hlt
                | apply count_status_total].
Qed.

Lemma necessary_quorum_decides_witness :
  ∃ st, _calculate_expense_status (Some sample_expense) two_of_five
        = (Ok st, two_of_five)
        ∧ st = ExpenseStatus.rejected.
Proof.
  destruct (necessary_quorum_decides two_of_five sample_expense
              [sample_approval 1 100 ApprovalStatus.approved]
              [sample_approval 2 201 ApprovalStatus.approved;
               sample_approval 3 202 ApprovalStatus.approved;
               sample_approval 4 203 ApprovalStatus.rejected;
               sample_approval 5 204 ApprovalStatus.rejected;
               sample_approval 6 205 ApprovalStatus.rejected])
    as (st & Hrun & _ & _ & _ & _).
  - vm_compute. reflexivity.
  - intros a Ha. apply list_elem_of_singleton in Ha as ->.
    split; discriminate.
  - discriminate.
  - exists st. split; [exact Hrun|].
    vm_compute in Hrun. congruence.
Defined.

(** The loop over the compulsory approvals answers with the first one that
    is not approved. *)
Lemma check_compulsory_first_undecided (before after : list Approval.t)
    (a : Approval.t) :
  (∀ b, b ∈ before → Approval.status b = ApprovalStatus.approved) →
  Approval.status a ≠ ApprovalStatus.approved →
  check_compulsory (before ++ a :: after)
  = Some (match Approval.status a with
          | ApprovalStatus.rejected => ExpenseStatus.rejected
          | _ => ExpenseStatus.pending
          end).
Proof.
  induction before as [|b before IH]; intros Hb Ha; cbn.
  - by destruct (Approval.status a).
  - rewrite (Hb b) by by left. apply IH; [|done].
    intros; apply Hb; by right.
Qed.

(** A compulsory rejection decides the aggregate when no compulsory
    approval is pending. *)
Lemma compulsory_veto_without_pending (approvals : list Approval.t)
    (rules : list ApprovalRule.t)
    (compulsory_approvals necessary_approvals : list Approval.t) :
  group_approvals rules approvals
  = (compulsory_approvals, necessary_approvals) →
  (∃ a, a ∈ compulsory_approvals
        ∧ Approval.status a = ApprovalStatus.rejected) →
  (∀ a, a ∈ compulsory_approvals
        → Approval.status a ≠ ApprovalStatus.pending) →
  expense_status_of approvals rules = ExpenseStatus.rejected.
Proof.
  intros Hg (a & Ha & Hr) Hp. unfold expense_status_of.
  destruct approvals as [|a0 approvals].
  { inversion Hg; subst. by inversion Ha. }
  rewrite Hg. clear Hg.
  induction compulsory_approvals as [|b l IH]; [by inversion Ha|].
  cbn [check_compulsory]. destruct (Approval.status b) eqn:E.
  - exfalso. by apply (Hp b); [left|].
  - apply elem_of_cons in Ha as [->|Ha]; [congruence|].
    revert IH. destruct (check_compulsory l) eqn:Ec.
    + intros IH. apply IH; [done|]. intros; apply Hp; by right.
    + intros _. exfalso. clear -Ha Hr Ec.
      induction l as [|c l IH]; [by inversion Ha|].
      cbn in Ec. apply elem_of_cons in Ha as [->|Ha].
      * by rewrite Hr in Ec.
      * destruct (Approval.status c); try done. by apply IH.
  - done.
Qed.

(** C2: with the compulsory approvals of approvers 100 (still pending) and
    101 (rejected), the aggregate is [pending] when the pending row is
    examined first and [rejected] when the rows come in the other order. *)
Theorem compulsory_rejection_behind_pending :
  group_approvals
    (active_rules_of_category (working pending_then_rejected) sample_expense)
    (approvals_of_expense (working pending_then_rejected) sample_expense)
  = ([sample_approval 1 100 ApprovalStatus.pending;
      sample_approval 2 101 ApprovalStatus.rejected], [])
  ∧ _calculate_expense_status (Some sample_expense) pending_then_rejected
    = (Ok ExpenseStatus.pending, pending_then_rejected)
  ∧ approvals (working rejected_then_pending)
    ≡ₚ approvals (working pending_then_rejected)
  ∧ _calculate_expense_status (Some sample_expense) rejected_then_pending
    = (Ok ExpenseStatus.rejected, rejected_then_pending).
Proof.
  split_and!; [by vm_compute | by vm_compute | | by vm_compute].
  apply perm_swap.
Qed.

(** C3, as the code has it: with the one compulsory approval approved and
    five necessary approvals of which three are approved, none rejected
    and two pending, the percentage is exactly 60, the 60% gate does not
    reject, and the aggregate is [approved]. *)
Theorem three_of_five_is_approved (s : Session) (expense : Expense.t)
    (c : Approval.t) (necessary_approvals : list Approval.t) :
  group_approvals (active_rules_of_category (working s) expense)
                  (approvals_of_expense (working s) expense)
  = ([c], necessary_approvals) →
  Approval.status c = ApprovalStatus.approved →
  length necessary_approvals = 5%nat →
  count_status ApprovalStatus.approved necessary_approvals = 3%nat →
  count_status ApprovalStatus.rejected necessary_approvals = 0%nat →
  count_status ApprovalStatus.pending necessary_approvals = 2%nat →
  (approval_percentage 3 5 == inject_Z 60)%Q
  ∧ ¬ (approval_percentage 3 5 < inject_Z 60)%Q
  ∧ _calculate_expense_status (Some expense) s
    = (Ok ExpenseStatus.approved, s).
Proof.
  intros Hg Hc Hlen Happ _ _.
  split; [reflexivity|]. split; [by vm_compute|].
  cbv [_calculate_expense_status try_except mbind DB_bind mret DB_ret attr
       get_working].
  rewrite (expense_status_of_quorum _ _ _ _ Hg).
  - rewrite Happ, Hlen. reflexivity.
  - intros a Ha. apply list_elem_of_singleton in Ha as ->.
    rewrite Hc. split; discriminate.
  - intros ->. discriminate.
Qed.

Lemma three_of_five_is_approved_witness :
  _calculate_expense_status (Some sample_expense) three_of_five
  = (Ok ExpenseStatus.approved, three_of_five).
Proof.
  apply (three_of_five_is_approved three_of_five sample_expense
           (sample_approval 1 100 ApprovalStatus.approved)
           [sample_approval 2 201 ApprovalStatus.approved;
            sample_approval 3 202 ApprovalStatus.approved;
            sample_approval 4 203 ApprovalStatus.approved;
            sample_approval 5 204 ApprovalStatus.pending;
            sample_approval 6 205 ApprovalStatus.pending]);
    vm_compute; reflexivity.
Defined.

(** C3, as stated: in that partial state the aggregate is not [pending]. *)
Lemma three_of_five_not_pending :
  group_approvals
    (active_rules_of_category (working three_of_five) sample_expense)
    (approvals_of_expense (working three_of_five) sample_expense)
  = ([sample_approval 1 100 ApprovalStatus.approved],
     [sample_approval 2 201 ApprovalStatus.approved;
      sample_approval 3 202 ApprovalStatus.approved;
      sample_approval 4 203 ApprovalStatus.approved;
      sample_approval 5 204 ApprovalStatus.pending;
      sample_approval 6 205 ApprovalStatus.pending])
  ∧ _calculate_expense_status (Some sample_expense) three_of_five
    ≠ (Ok ExpenseStatus.pending, three_of_five).
Proof. split; [by vm_compute|]. vm_compute. discriminate. Qed.

Lemma filter_none {A} (P : A → Prop) `{!∀ x, Decision (P x)} (l : list A) :
  (∀ x, x ∈ l → ¬ P x) → filter P l = [].
Proof.
  induction l as [|x l IH]; intros Hl; [done|].
  rewrite filter_cons_False by (apply Hl; by left).
  apply IH. intros; apply Hl; by right.
Qed.

(** C4: with no active rule for the expense's category and company,
    [create_approval_workflow] returns the empty list and leaves the
    session as it was; with no approval row for the expense, the aggregate
    is [pending]. *)
Theorem no_rules_no_auto_approval :
  (∀ (expense : Expense.t) (now : datetime) (s : Session),
     (∀ r, r ∈ approval_rules (working s) →
           ¬ (ApprovalRule.category_id r = Some (Expense.category_id expense)
              ∧ ApprovalRule.company_id r = Expense.company_id expense
              ∧ ApprovalRule.is_active r = true)) →
     create_approval_workflow expense now s = (Ok [], s))
  ∧ (∀ (expense : Expense.t) (s : Session),
       (∀ a, a ∈ approvals (working s) →
             Approval.expense_id a ≠ Expense.id expense) →
       _calculate_expense_status (Some expense) s
       = (Ok ExpenseStatus.pending, s)).
Proof.
  split.
  - intros expense now s H.
    cbv [create_approval_workflow create_approval_workflow_try
         _get_approval_rules try_except mbind DB_bind mret DB_ret get_working].
    by rewrite (filter_none _ _ H).
  - intros expense s H.
    cbv [_calculate_expense_status try_except mbind DB_bind mret DB_ret attr
         get_working approvals_of_expense].
    by rewrite (filter_none _ _ H).
Qed.

Lemma no_rules_no_auto_approval_witness :
  create_approval_workflow sample_expense 0 no_rules = (Ok [], no_rules)
  ∧ _calculate_expense_status (Some sample_expense) no_rules
    = (Ok ExpenseStatus.pending, no_rules).
Proof.
  split.
  - apply (proj1 no_rules_no_auto_approval sample_expense 0 no_rules).
    intros r Hr. by inversion Hr.
  - apply (proj2 no_rules_no_auto_approval sample_expense no_rules).
    intros a Ha. by inversion Ha.
Defined.

(** ** Running the session monad *)

Lemma bind_Ok {A B} (m : DB A) (k : A → DB B) s a s' :
  m s = (Ok a, s') → (m ≫= k) s = k a s'.
Proof. intros H. unfold mbind, DB_bind. by rewrite H. Qed.

Lemma bind_Raised {A B} (m : DB A) (k : A → DB B) s e s' :
  m s = (Raised e, s') → (m ≫= k) s = (Raised e, s').
Proof. intros H. unfold mbind, DB_bind. by rewrite H. Qed.

Lemma try_except_Ok {A} (body : DB A) handler s a s' :
  body s = (Ok a, s') → try_except body handler s = (Ok a, s').
Proof. intros H. unfold try_except. by rewrite H. Qed.

Lemma try_except_Raised {A} (body : DB A) handler s e s' :
  body s = (Raised e, s') → try_except body handler s = handler e s'.
Proof. intros H. unfold try_except. by rewrite H. Qed.

(** One more statement of a [try] body evaluated. *)
Ltac db_step := erewrite bind_Ok by reflexivity; cbv beta iota.
Ltac db_step_with tac := erewrite bind_Ok; [cbv beta iota | tac].

Lemma db_commit_Ok (s : Session) :
  faults s = [] →
  uq_approvals_expense_approver (approvals (working s)) = true →
  db_commit s = (Ok (), mkSession (working s) (working s) [] (uuid_seed s)).
Proof. intros Hf Hu. unfold db_commit. by rewrite Hf, Hu. Qed.

Lemma create_notification_Ok (s : Session) user_id type title message :
  faults s = [] →
  uq_approvals_expense_approver (approvals (working s)) = true →
  let t := with_notifications
             (λ l, l ++ [Notification.mk user_id type title message])
             (working s) in
  create_notification user_id type title message s
  = (Ok (Notification.mk user_id type title message),
     mkSession t t [] (uuid_seed s)).
Proof.
  intros Hf Hu t. unfold create_notification.
  apply try_except_Ok. db_step.
  db_step_with ltac:(by apply db_commit_Ok). reflexivity.
Qed.

Lemma log_action_Ok (s : Session) company_id user_id action rtype rid :
  faults s = [] →
  uq_approvals_expense_approver (approvals (working s)) = true →
  let t := with_audit_logs
             (λ l, l ++ [AuditLog.mk company_id user_id action rtype rid])
             (working s) in
  log_action company_id user_id action rtype rid s
  = (Ok (AuditLog.mk company_id user_id action rtype rid),
     mkSession t t [] (uuid_seed s)).
Proof.
  intros Hf Hu t. unfold log_action.
  apply try_except_Ok. db_step.
  db_step_with ltac:(by apply db_commit_Ok). reflexivity.
Qed.

Lemma unique_key {A} (key : A → UUID) (l : list A) (x y : A) :
  NoDup (map key l) → x ∈ l → y ∈ l → key x = key y → x = y.
Proof.
  induction l as [|z l IH]; intros Hnd Hx Hy Hk; [by inversion Hx|].
  cbn in Hnd. apply NoDup_cons in Hnd as [Hz Hnd].
  apply elem_of_cons in Hx as [->|Hx], Hy as [->|Hy]; try done.
  - exfalso. apply Hz. rewrite Hk.
    apply list_elem_of_In, in_map, list_elem_of_In, Hy.
  - exfalso. apply Hz. rewrite <- Hk.
    apply list_elem_of_In, in_map, list_elem_of_In, Hx.
  - by apply IH.
Qed.

(** Rewriting a row without touching its keys keeps the unique
    constraint as it was. *)
Lemma uq_update_row (new old : Approval.t) (l : list Approval.t) :
  NoDup (map Approval.id l) → old ∈ l →
  Approval.id new = Approval.id old →
  Approval.expense_id new = Approval.expense_id old →
  Approval.approver_id new = Approval.approver_id old →
  uq_approvals_expense_approver (update_row Approval.id new l)
  = uq_approvals_expense_approver l.
Proof.
  intros Hnd Hin Hid He Ha. unfold uq_approvals_expense_approver.
  rewrite map_update_row; [done|].
  intros r Hr Hk. rewrite Hid in Hk.
  rewrite (unique_key Approval.id l r old) by done. by rewrite He, Ha.
Qed.

(** ** Decision processing *)

Section Decide.
Context (s : Session) (a : Approval.t) (approver : User.t).
(** No commit fails. *)
Hypothesis no_fault : faults s = [].
(** The primary key and the unique constraint of the table hold. *)
Hypothesis pk : NoDup (map Approval.id (approvals (working s))).
Hypothesis uq :
  uq_approvals_expense_approver (approvals (working s)) = true.
(** [a] is a row of the table, [approver] is its approver, and its
    foreign key [expense_id] points to a row. *)
Hypothesis row : a ∈ approvals (working s).
Hypothesis rightful : Approval.approver_id a = User.id approver.
Hypothesis fk :
  ∃ e, e ∈ expenses (working s) ∧ Expense.id e = Approval.expense_id a.

Lemma expense_loaded :
  ∃ e, head (filter (λ e, Expense.id e = Approval.expense_id a)
                    (expenses (working s))) = Some e.
Proof.
  destruct fk as (e & He & Hid).
  destruct (filter _ (expenses (working s))) as [|e' l] eqn:E.
  - exfalso. by apply (filter_nil_not_elem_of _ _ e E).
  - by exists e'.
Qed.

Lemma lookup_decided (t : Tables) (a' : Approval.t) :
  approvals t = update_row Approval.id a' (approvals (working s)) →
  Approval.id a' = Approval.id a →
  Approval.approver_id a' = Approval.approver_id a →
  filter (λ x, Approval.id x = Approval.id a
               ∧ Approval.approver_id x = User.id approver)
         (approvals t) = [a']
  ∧ filter (λ x, Approval.id x = Approval.id a) (approvals t) = [a'].
Proof.
  intros -> Hid Hap.
  assert (Hnd : NoDup (map Approval.id
                   (update_row Approval.id a' (approvals (working s))))).
  { rewrite map_update_row; [done|]. by intros r _ ->. }
  assert (Hin : a' ∈ update_row Approval.id a' (approvals (working s))).
  { by apply (elem_of_update_row _ _ a). }
  split; apply (filter_unique_row Approval.id); try done.
  - split; [done|]. by rewrite Hap.
  - intros x [Hx _]. by rewrite Hx.
  - intros x Hx. by rewrite Hx.
Qed.

(** A decision on a pending approval goes through, whatever its value:
    the row is rewritten, the audit entry, the expense status and the
    notification are committed. *)
Lemma process_approval_pending d c now :
  Approval.status a = ApprovalStatus.pending →
  ∃ t, approvals t
       = update_row Approval.id (decided a d c now) (approvals (working s))
       ∧ process_approval (Approval.id a) d c approver now s
         = (Ok (true, None), mkSession t t [] (uuid_seed s)).
Proof.
  intros Hp. destruct expense_loaded as [e He].
  eexists. split; cycle 1.
  - unfold process_approval. apply try_except_Ok. db_step.
    rewrite (filter_unique_row Approval.id _ _ a);
      [|done|done|done|by intros x [Hx _]].
    db_step.
    rewrite (bool_decide_eq_false_2
               (Approval.status a ≠ ApprovalStatus.pending))
      by (intros Hne; by apply Hne).
    rewrite He. db_step.
    db_step_with ltac:(apply log_action_Ok;
                       [done | cbn; by rewrite (uq_update_row _ a)]).
    do 3 db_step.
    db_step_with ltac:(apply db_commit_Ok;
                       [done | cbn; by rewrite (uq_update_row _ a)]).
    db_step_with ltac:(apply create_notification_Ok;
                       [done | cbn; by rewrite (uq_update_row _ a)]).
    reflexivity.
  - reflexivity.
Qed.
End Decide.

(** C5: when the rightful approver decides a pending approval twice, with
    decisions among approved and rejected, the first call succeeds and the
    second fails with "Approval has already been processed" and leaves the
    session as the first call left it; the stored row carries the status,
    the comments and the decided-at time of the first call. *)
Theorem decide_twice (s : Session) (a : Approval.t) (approver : User.t)
    (d1 d2 : ApprovalStatus.t) (c1 c2 : option string) (now1 now2 : datetime) :
  faults s = [] →
  NoDup (map Approval.id (approvals (working s))) →
  uq_approvals_expense_approver (approvals (working s)) = true →
  a ∈ approvals (working s) →
  Approval.approver_id a = User.id approver →
  (∃ e, e ∈ expenses (working s)
        ∧ Expense.id e = Approval.expense_id a) →
  Approval.status a = ApprovalStatus.pending →
  d1 = ApprovalStatus.approved ∨ d1 = ApprovalStatus.rejected →
  d2 = ApprovalStatus.approved ∨ d2 = ApprovalStatus.rejected →
  ∃ s1,
    process_approval (Approval.id a) d1 c1 approver now1 s
    = (Ok (true, None), s1)
    ∧ process_approval (Approval.id a) d2 c2 approver now2 s1
      = (Ok (false, Some "Approval has already been processed"), s1)
    ∧ filter (λ x, Approval.id x = Approval.id a) (approvals (committed s1))
      = [Approval.mk (Approval.id a) (Approval.expense_id a)
           (Approval.approver_id a) d1 c1 (Some now1) (Approval.created_at a)]
    ∧ working s1 = committed s1.
Proof.
  intros Hf Hpk Huq Hrow Hr Hfk Hp Hd1 _.
  destruct (process_approval_pending s a approver Hf Hpk Huq Hrow Hr Hfk
              d1 c1 now1 Hp) as (t & Ht & Hrun).
  destruct (lookup_decided s a approver Hpk Hrow Hr t (decided a d1 c1 now1) Ht)
    as [Hboth Hid]; [done|done|].
  eexists. split; [exact Hrun|]. split; [|split; [exact Hid|done]].
  unfold process_approval. apply try_except_Ok. db_step.
  cbn [working]. rewrite Hboth. db_step.
  rewrite bool_decide_eq_true_2; [done|].
  cbn. by destruct Hd1 as [-> | ->].
Qed.

Lemma decide_twice_witness :
  ∃ s1,
    process_approval 1 ApprovalStatus.rejected (Some "no receipt")
      (sample_user 100) 50 all_pending
    = (Ok (true, None), s1)
    ∧ process_approval 1 ApprovalStatus.approved (Some "changed my mind")
        (sample_user 100) 60 s1
      = (Ok (false, Some "Approval has already been processed"), s1)
    ∧ filter (λ x, Approval.id x = 1) (approvals (committed s1))
      = [Approval.mk 1 500 100 ApprovalStatus.rejected (Some "no receipt")
           (Some 50) 0]
    ∧ working s1 = committed s1.
Proof.
  apply (decide_twice all_pending
           (sample_approval 1 100 ApprovalStatus.pending) (sample_user 100)
           ApprovalStatus.rejected ApprovalStatus.approved
           (Some "no receipt") (Some "changed my mind") 50 60).
  - reflexivity.
  - apply (bool_decide_unpack _). vm_compute. exact I.
  - vm_compute. reflexivity.
  - left.
  - reflexivity.
  - exists sample_expense. split; [left | reflexivity].
  - reflexivity.
  - by right.
  - by left.
Defined.

(** C10: [process_approval] accepts the decision value [pending] on a
    pending approval: the call succeeds, the stored status is still
    [pending] and the decided-at time is set. *)
Theorem decide_pending_accepted (s : Session) (a : Approval.t)
    (approver : User.t) (c : option string) (now : datetime) :
  faults s = [] →
  NoDup (map Approval.id (approvals (working s))) →
  uq_approvals_expense_approver (approvals (working s)) = true →
  a ∈ approvals (working s) →
  Approval.approver_id a = User.id approver →
  (∃ e, e ∈ expenses (working s)
        ∧ Expense.id e = Approval.expense_id a) →
  Approval.status a = ApprovalStatus.pending →
  ∃ s1,
    process_approval (Approval.id a) ApprovalStatus.pending c approver now s
    = (Ok (true, None), s1)
    ∧ filter (λ x, Approval.id x = Approval.id a) (approvals (committed s1))
      = [Approval.mk (Approval.id a) (Approval.expense_id a)
           (Approval.approver_id a) ApprovalStatus.pending c (Some now)
           (Approval.created_at a)].
Proof.
  intros Hf Hpk Huq Hrow Hr Hfk Hp.
  destruct (process_approval_pending s a approver Hf Hpk Huq Hrow Hr Hfk
              ApprovalStatus.pending c now Hp) as (t & Ht & Hrun).
  destruct (lookup_decided s a approver Hpk Hrow Hr t
              (decided a ApprovalStatus.pending c now) Ht)
    as [_ Hid]; [done|done|].
  eexists. split; [exact Hrun|exact Hid].
Qed.

Lemma decide_pending_accepted_witness :
  ∃ s1,
    process_approval 1 ApprovalStatus.pending None (sample_user 100) 50
      all_pending
    = (Ok (true, None), s1)
    ∧ filter (λ x, Approval.id x = 1) (approvals (committed s1))
      = [Approval.mk 1 500 100 ApprovalStatus.pending None (Some 50) 0].
Proof.
  apply (decide_pending_accepted all_pending
           (sample_approval 1 100 ApprovalStatus.pending) (sample_user 100)
           None 50).
  - reflexivity.
  - apply (bool_decide_unpack _). vm_compute. exact I.
  - vm_compute. reflexivity.
  - left.
  - reflexivity.
  - exists sample_expense. split; [left | reflexivity].
  - reflexivity.
Defined.

(** ** [PUT /approvals/{approval_id}] *)

(** The endpoint writes the status of the request body into the row,
    whatever the status of the row was. *)
Lemma update_approval_sets_status (s : Session) (a : Approval.t)
    (current_user : User.t) (approval_data : ApprovalUpdate.t) :
  faults s = [] →
  NoDup (map Approval.id (approvals (working s))) →
  uq_approvals_expense_approver (approvals (working s)) = true →
  a ∈ approvals (working s) →
  Approval.approver_id a = User.id current_user →
  User.role current_user = UserRole.manager
  ∨ User.role current_user = UserRole.admin →
  ∃ a' s1,
    update_approval (Approval.id a) approval_data current_user s = (Ok a', s1)
    ∧ filter (λ x, Approval.id x = Approval.id a) (approvals (committed s1))
      = [a']
    ∧ Approval.status a' = ApprovalUpdate.status approval_data.
Proof.
  intros Hf Hpk Huq Hrow Hr Hrole.
  set (a1 := Approval.set_status (ApprovalUpdate.status approval_data) a).
  set (a' := match ApprovalUpdate.comments approval_data with
             | Some c => Approval.set_comments c a1
             | None => a1
             end).
  assert (Hkeys : Approval.id a' = Approval.id a
                  ∧ Approval.expense_id a' = Approval.expense_id a
                  ∧ Approval.approver_id a' = Approval.approver_id a
                  ∧ Approval.status a' = ApprovalUpdate.status approval_data).
  { subst a' a1. by destruct (ApprovalUpdate.comments approval_data). }
  destruct Hkeys as (Hid & He & Ha & Hst).
  exists a'. eexists. split; [|split; [|exact Hst]].
  - unfold update_approval, require_manager_or_admin.
    rewrite bool_decide_eq_true_2 by done. db_step.
    apply try_except_Ok. db_step.
    rewrite (filter_unique_row Approval.id _ _ a);
      [|done|done|done|by intros x [Hx _]].
    do 2 db_step. fold a1 a'.
    db_step_with ltac:(apply db_commit_Ok;
                       [done | cbn; by rewrite (uq_update_row _ a)]).
    db_step_with ltac:(apply log_action_Ok;
                       [done | cbn; by rewrite (uq_update_row _ a)]).
    reflexivity.
  - cbn. by apply (lookup_decided s a current_user Hpk Hrow Hr
                     (with_approvals (update_row Approval.id a') (working s))).
Qed.


(** ** Workflow creation *)

Lemma create_approval_workflow_no_rules (expense : Expense.t) (now : datetime)
    (s : Session) :
  (∀ r, r ∈ approval_rules (working s) →
        ¬ (ApprovalRule.category_id r = Some (Expense.category_id expense)
           ∧ ApprovalRule.company_id r = Expense.company_id expense
           ∧ ApprovalRule.is_active r = true)) →
  create_approval_workflow expense now s = (Ok [], s).
Proof.
  intros H.
  cbv [create_approval_workflow create_approval_workflow_try
       _get_approval_rules try_except mbind DB_bind mret DB_ret get_working].
  by rewrite (filter_none _ _ H).
Qed.

(** C7, as the code has it: when a step of its [try] block fails,
    [create_approval_workflow] rolls the session back, so that nothing
    uncommitted is left in it, and returns the empty list without raising,
    which is also the result of a successful run over no rule. *)
Theorem create_workflow_failure_is_silent (expense : Expense.t)
    (now : datetime) (s : Session) (e : Exception) (s1 : Session) :
  create_approval_workflow_try expense now s = (Raised e, s1) →
  ∃ s',
    create_approval_workflow expense now s = (Ok [], s')
    ∧ working s' = committed s'
    ∧ committed s' = committed s1
    ∧ ∀ s0,
        approval_rules (working s0) = [] →
        (create_approval_workflow expense now s0).1
        = (create_approval_workflow expense now s).1.
Proof.
  intros Hraised. eexists. split; [|split; [|split]].
  - unfold create_approval_workflow.
    erewrite try_except_Raised by exact Hraised. reflexivity.
  - reflexivity.
  - reflexivity.
  - intros s0 H0. rewrite create_approval_workflow_no_rules.
    + unfold create_approval_workflow.
      erewrite try_except_Raised by exact Hraised. reflexivity.
    + rewrite H0. intros r Hr. by inversion Hr.
Qed.

Lemma create_workflow_failure_is_silent_witness :
  ∃ s',
    create_approval_workflow sample_expense 77 second_commit_fails = (Ok [], s')
    ∧ working s' = committed s'.
Proof.
  destruct (create_workflow_failure_is_silent sample_expense 77
              second_commit_fails OperationalError
              (mkSession
                 (with_notifications
                    (λ l, l ++ [Notification.mk 100
                                  NotificationType.expense_submitted
                                  "New Expense Approval Required"
                                  "Expense 'taxi' requires your approval"])
                    (sample_tables
                       [Approval.mk 1000 500 100 ApprovalStatus.pending
                          None None 77]))
                 (with_notifications
                    (λ l, l ++ [Notification.mk 100
                                  NotificationType.expense_submitted
                                  "New Expense Approval Required"
                                  "Expense 'taxi' requires your approval"])
                    (sample_tables
                       [Approval.mk 1000 500 100 ApprovalStatus.pending
                          None None 77]))
                 [] 1002))
    as (s' & Hrun & Hw & _).
  - vm_compute. reflexivity.
  - exists s'. by split.
Defined.

(** C7, as stated: the second commit of a six-rule workflow fails; the
    call returns the empty list, as it does for an expense with no rule,
    and the approval created before the failure stays committed.  The
    same happens, with no fault in the database, when two rules name the
    same approver. *)
Lemma create_workflow_partial_commit :
  (∃ e s1, create_approval_workflow_try sample_expense 77 second_commit_fails
           = (Raised e, s1))
  ∧ (create_approval_workflow sample_expense 77 second_commit_fails).1 = Ok []
  ∧ (create_approval_workflow sample_expense 77 no_rules).1 = Ok []
  ∧ approvals_of_expense
      (committed (create_approval_workflow sample_expense 77
                    second_commit_fails).2) sample_expense
    = [Approval.mk 1000 500 100 ApprovalStatus.pending None None 77]
  ∧ (create_approval_workflow sample_expense 77 same_approver_twice).1 = Ok []
  ∧ approvals_of_expense
      (committed (create_approval_workflow sample_expense 77
                    same_approver_twice).2) sample_expense
    = [Approval.mk 1000 500 100 ApprovalStatus.pending None None 77].
Proof.
  split_and!; try (vm_compute; reflexivity).
  do 2 eexists. vm_compute. reflexivity.
Qed.

(** A notification or an audit entry that goes through commits the
    session and leaves the approval rows as the session had them. *)
Lemma create_notification_Ok_inv (s s' : Session) user_id type title message
    (n : Notification.t) :
  create_notification user_id type title message s = (Ok n, s') →
  approvals (working s') = approvals (working s)
  ∧ users (working s') = users (working s)
  ∧ committed s' = working s'.
Proof.
  cbv [create_notification try_except mbind DB_bind mret DB_ret
       modify_working db_commit db_rollback raise].
  cbn [faults working committed].
  destruct (faults s) as [|[|] fs]; cbn [tail];
    try destruct (uq_approvals_expense_approver _);
    intros H; inversion H; by subst.
Qed.

Lemma log_action_Ok_inv (s s' : Session) company_id user_id action rtype rid
    (l : AuditLog.t) :
  log_action company_id user_id action rtype rid s = (Ok l, s') →
  approvals (working s') = approvals (working s)
  ∧ committed s' = working s'.
Proof.
  cbv [log_action try_except mbind DB_bind mret DB_ret
       modify_working db_commit db_rollback raise].
  cbn [faults working committed].
  destruct (faults s) as [|[|] fs]; cbn [tail];
    try destruct (uq_approvals_expense_approver _);
    intros H; inversion H; by subst.
Qed.

Lemma db_commit_Ok_inv (s s' : Session) :
  db_commit s = (Ok (), s') →
  working s' = working s ∧ committed s' = working s'.
Proof.
  unfold db_commit.
  destruct (faults s) as [|[|] fs]; cbn [tail];
    try destruct (uq_approvals_expense_approver _);
    intros H; inversion H; by subst.
Qed.

(** The loop that goes through returns the approvals it was given
    followed by those it created, and the latter are rows of the session. *)
Lemma create_approvals_Ok_inv (expense : Expense.t) (now : datetime)
    (rules : list ApprovalRule.t) :
  ∀ (acc l : list Approval.t) (s s' : Session),
    create_approvals expense now rules acc s = (Ok l, s') →
    (∀ a, a ∈ approvals (working s) → a ∈ approvals (working s'))
    ∧ ∃ new, l = acc ++ new
             ∧ ∀ a, a ∈ new → a ∈ approvals (working s').
Proof.
  induction rules as [|rule rules IH]; intros acc l s s' Hrun.
  { inversion Hrun; subst. split; [done|]. exists [].
    split; [by rewrite app_nil_r|]. intros a Ha. by inversion Ha. }
  cbn [create_approvals] in Hrun.
  destruct (negb (ApprovalRule.is_active rule)); [by apply IH|].
  unfold mbind at 1, DB_bind at 1 in Hrun.
  destruct (_get_user (ApprovalRule.user_id rule) s)
    as [[approver|ex] s0] eqn:Huser; [|done].
  assert (s0 = s) as ->.
  { revert Huser. cbv [_get_user mbind DB_bind get_working scalar_one_or_none].
    destruct (filter _ _) as [|u [|u' us]]; cbv [mret DB_ret raise];
      intros H; by inversion H. }
  destruct approver as [approver|]; [|by apply IH].
  destruct (negb (User.is_active approver) || _); [by apply IH|].
  cbv [uuid4 modify_working] in Hrun.
  unfold mbind at 1, DB_bind at 1 in Hrun.
  unfold mbind at 1, DB_bind at 1 in Hrun.
  unfold mbind at 1, DB_bind at 1 in Hrun.
  match type of Hrun with
  | context [create_notification ?u ?ty ?ti ?m ?s1] =>
      destruct (create_notification u ty ti m s1) as [[n|ex] s2] eqn:Hn;
        [|done]
  end.
  apply create_notification_Ok_inv in Hn as (Ha2 & _ & _).
  cbn [working approvals with_approvals] in Ha2.
  apply IH in Hrun as (Hmono & new & -> & Hnew).
  split.
  - intros a Ha. apply Hmono. rewrite Ha2. apply elem_of_app. by left.
  - eexists (_ :: new). split; [by rewrite <- app_assoc|].
    intros a Ha. apply elem_of_cons in Ha as [->|Ha]; [|by apply Hnew].
    apply Hmono. rewrite Ha2. apply elem_of_app. right. by left.
Qed.

(** Every approval that [create_approval_workflow] returns is a committed
    row when the call returns. *)
Lemma create_workflow_returns_committed (expense : Expense.t)
    (now : datetime) (s s' : Session) (l : list Approval.t) :
  create_approval_workflow expense now s = (Ok l, s') →
  ∀ a, a ∈ l → a ∈ approvals (committed s').
Proof.
  unfold create_approval_workflow, try_except.
  destruct (create_approval_workflow_try expense now s)
    as [[l0|ex] s0] eqn:Htry; cycle 1.
  { cbv [mbind DB_bind db_rollback mret DB_ret]. intros H; inversion H.
    intros a Ha. by inversion Ha. }
  intros H; inversion H; subst l0 s0. clear H.
  revert Htry. unfold create_approval_workflow_try.
  unfold mbind at 1, DB_bind at 1.
  cbv [_get_approval_rules mbind DB_bind get_working mret DB_ret].
  fold (@mbind DB DB_bind).
  destruct (sort_by _ _) as [|r rs] eqn:Hrules.
  { intros H; inversion H. intros a Ha. by inversion Ha. }
  destruct (create_approvals _ _ _ _ s) as [[l1|ex] s1] eqn:Hloop; [|done].
  apply create_approvals_Ok_inv in Hloop as (_ & new & -> & Hnew).
  destruct (db_commit s1) as [[[]|ex] s2] eqn:Hc; [|done].
  apply db_commit_Ok_inv in Hc as [Hw2 _].
  destruct (log_action _ _ _ _ _ s2) as [[lg|ex] s3] eqn:Hlog; [|done].
  apply log_action_Ok_inv in Hlog as [Ha3 Hc3].
  intros H; inversion H; subst. intros a Ha. cbn in Ha.
  rewrite Hc3, Ha3, Hw2. by apply Hnew.
Qed.

(** ** Overdue sweep *)







(** ** Statistics *)

#[local] Instance value_inj : Inj (=) (=) ApprovalStatus.value.
Proof. by intros [] [] H. Qed.

Lemma bump_keys (st x : ApprovalStatus.t)
    (rows : list (ApprovalStatus.t * nat)) :
  x ∈ (bump st rows).*1 → x = st ∨ x ∈ rows.*1.
Proof.
  induction rows as [|[st' n] rows IH]; cbn.
  - intros Hx. apply list_elem_of_singleton in Hx. by left.
  - case_bool_decide; cbn; [by right|].
    intros Hx. apply elem_of_cons in Hx as [->|Hx]; [right; by left|].
    destruct (IH Hx); [by left|right; by right].
Qed.

Lemma bump_NoDup (st : ApprovalStatus.t)
    (rows : list (ApprovalStatus.t * nat)) :
  NoDup rows.*1 → NoDup (bump st rows).*1.
Proof.
  induction rows as [|[st' n] rows IH]; cbn; intros Hnd.
  - apply NoDup_singleton.
  - apply NoDup_cons in Hnd as [Hst' Hnd].
    case_bool_decide; cbn; apply NoDup_cons; split; try done.
    + intros Hin. by destruct (bump_keys _ _ _ Hin).
    + by apply IH.
Qed.

Lemma group_by_status_NoDup (l : list Approval.t) :
  NoDup (group_by_status l).*1.
Proof.
  induction l as [|a l IH]; [apply NoDup_nil_2|]. by apply bump_NoDup.
Qed.

(** With one row per status, the comprehension is the map of the rows. *)
Lemma status_counts_of_list_to_map (rows : list (ApprovalStatus.t * nat)) :
  NoDup rows.*1 →
  status_counts_of rows = list_to_map (dict_item <$> rows).
Proof.
  unfold status_counts_of. intros Hnd.
  enough (∀ d : gmap string nat,
            foldl (λ d row, <[ApprovalStatus.value row.1 := row.2]> d) d rows
            = list_to_map (dict_item <$> rows) ∪ d) as ->.
  { by rewrite (right_id_L ∅ (∪)). }
  induction rows as [|[st n] rows IH]; intros d; cbn.
  - by rewrite (left_id_L ∅ (∪)).
  - apply NoDup_cons in Hnd as [Hst Hnd].
    rewrite IH by done. rewrite <- insert_union_l. symmetry.
    apply insert_union_r, not_elem_of_list_to_map_1.
    rewrite <- list_fmap_compose. intros Hin.
    apply list_elem_of_fmap in Hin as ([st' n'] & Heq & Hin). cbn in Heq.
    apply (inj _) in Heq as ->. apply Hst.
    apply list_elem_of_fmap. by exists (st', n').
Qed.

Lemma list_to_map_bump (st : ApprovalStatus.t)
    (rows : list (ApprovalStatus.t * nat)) :
  let d : gmap string nat := list_to_map (dict_item <$> rows) in
  list_to_map (dict_item <$> bump st rows)
  = <[ApprovalStatus.value st
      := S (default 0%nat (d !! ApprovalStatus.value st))]> d.
Proof.
  induction rows as [|[st' n] rows IH]; cbn; [done|].
  case_bool_decide as Hst; cbn.
  - subst st'. by rewrite lookup_insert_eq, insert_insert_eq.
  - rewrite IH. cbn.
    assert (ApprovalStatus.value st ≠ ApprovalStatus.value st')
      by (intros Heq; by apply (inj _) in Heq).
    rewrite lookup_insert_ne by done.
    by rewrite insert_insert_ne by done.
Qed.

Lemma sum_values_insert (d : gmap string nat) (k : string) :
  sum_values (<[k := S (default 0%nat (d !! k))]> d) = S (sum_values d).
Proof.
  unfold sum_values. destruct (d !! k) as [n|] eqn:E; cbn.
  - rewrite <- (insert_delete_eq d).
    rewrite map_to_list_insert by apply lookup_delete_eq.
    rewrite <- (map_to_list_delete d k n E). by cbn.
  - by rewrite map_to_list_insert.
Qed.

Lemma status_counts_lookup (l : list Approval.t) (st : ApprovalStatus.t) :
  default 0%nat (status_counts_of (group_by_status l)
                   !! ApprovalStatus.value st)
  = count_status st l.
Proof.
  rewrite status_counts_of_list_to_map by apply group_by_status_NoDup.
  unfold count_status. induction l as [|a l IH]; [done|].
  cbn [group_by_status foldr]. rewrite list_to_map_bump. cbn zeta.
  fold (group_by_status l). rewrite filter_cons.
  destruct (decide (Approval.status a = st)) as [->|Hne].
  - rewrite lookup_insert_eq. cbn. by rewrite IH.
  - rewrite lookup_insert_ne; [done|].
    intros Heq. by apply (inj _) in Heq.
Qed.

Lemma status_counts_sum (l : list Approval.t) :
  sum_values (status_counts_of (group_by_status l)) = length l.
Proof.
  rewrite status_counts_of_list_to_map by apply group_by_status_NoDup.
  induction l as [|a l IH]; [done|].
  cbn [group_by_status foldr]. rewrite list_to_map_bump. cbn zeta.
  fold (group_by_status l). rewrite sum_values_insert. cbn. by rewrite IH.
Qed.

Lemma date_filter_window (approver : User.t)
    (start_date end_date : option datetime) (a : Approval.t) :
  date_filter approver start_date end_date a
  ↔ Approval.approver_id a = User.id approver
    ∧ (∀ d, start_date = Some d → d ≤ Approval.created_at a)
    ∧ (∀ d, end_date = Some d → Approval.created_at a ≤ d).
Proof.
  unfold date_filter. split.
  - intros (Ha & Hs & He). split; [done|].
    split; intros d ->; done.
  - intros (Ha & Hs & He). split; [done|]. split.
    + destruct start_date; [by apply Hs|done].
    + destruct end_date; [by apply He|done].
Qed.

(** The query of the average keeps the approver's decided approvals. *)
Lemma omap_decision_times (approver : User.t) (l : list Approval.t) :
  omap (λ a, if bool_decide (Approval.approver_id a = User.id approver
                             ∧ Approval.status a ≠ ApprovalStatus.pending)
             then d ← Approval.approved_at a;
                  Some (epoch (d - Approval.created_at a))
             else None) l
  = omap (λ a, if bool_decide (Approval.status a ≠ ApprovalStatus.pending)
               then d ← Approval.approved_at a;
                    Some (Qmake (d - Approval.created_at a) 1000000)
               else None)
         (filter (λ a, Approval.approver_id a = User.id approver) l).
Proof.
  induction l as [|a l IH]; [done|]. rewrite filter_cons.
  cbn [omap list_omap]. rewrite IH. clear IH.
  destruct (decide (Approval.approver_id a = User.id approver)) as [Ha|Ha].
  - cbn [omap list_omap].
    destruct (decide (Approval.status a = ApprovalStatus.pending)) as [Hs|Hs].
    + rewrite !bool_decide_eq_false_2; [done| |]; intros H; apply H; tauto.
    + rewrite !bool_decide_eq_true_2 by tauto. done.
  - rewrite bool_decide_eq_false_2 by tauto. done.
Qed.

(** C9, as the code has it: [approved], [rejected] and [total_processed]
    (which counts every status, [pending] too) are taken over the
    approver's approvals created within the window; [pending] counts all
    the pending approvals of the approver and the average is taken over
    all his decided approvals that carry a decision time, as decided-at
    minus created-at — both whatever the window. *)
Theorem statistics_scope (approver : User.t)
    (start_date end_date : option datetime) (s : Session) :
  let in_window :=
    filter (date_filter approver start_date end_date) (approvals (working s)) in
  let mine :=
    filter (λ a, Approval.approver_id a = User.id approver)
           (approvals (working s)) in
  let decision_times :=
    omap (λ a, if bool_decide (Approval.status a ≠ ApprovalStatus.pending)
               then d ← Approval.approved_at a;
                    Some (Qmake (d - Approval.created_at a) 1000000)
               else None) mine in
  ∃ st,
    get_approval_statistics approver start_date end_date s = (Ok st, s)
    ∧ approved st
      = length (filter (λ a, Approval.status a = ApprovalStatus.approved)
                       in_window)
    ∧ rejected st
      = length (filter (λ a, Approval.status a = ApprovalStatus.rejected)
                       in_window)
    ∧ total_processed st = length in_window
    ∧ pending st
      = length (filter (λ a, Approval.status a = ApprovalStatus.pending) mine)
    ∧ average_approval_time_hours st
      = round2 (match sql_avg decision_times with
                | Some x => if Qeq_bool x (inject_Z 0) then inject_Z 0 else x
                | None => inject_Z 0
                end / inject_Z 3600).
Proof.
  intros in_window mine decision_times. eexists.
  split; [reflexivity|]. cbn [approved rejected total_processed pending
                              average_approval_time_hours].
  split_and!.
  - apply (status_counts_lookup _ ApprovalStatus.approved).
  - apply (status_counts_lookup _ ApprovalStatus.rejected).
  - apply status_counts_sum.
  - subst mine. rewrite list_filter_filter. f_equal.
    apply list_filter_iff. intros a. tauto.
  - subst decision_times mine. by rewrite omap_decision_times.
Qed.

(** C9, as stated: approver 100 has no approval created between day 5
    and day 6, yet for that window the statistics count one pending
    approval and an average decision time of three hours. *)
Lemma statistics_outside_window :
  filter (date_filter (sample_user 100) (Some (5 * day)) (Some (6 * day)))
         (approvals (working two_old_approvals)) = []
  ∧ ∃ st,
      get_approval_statistics (sample_user 100) (Some (5 * day))
        (Some (6 * day)) two_old_approvals
      = (Ok st, two_old_approvals)
      ∧ total_processed st = 0%nat
      ∧ pending st = 1%nat
      ∧ (average_approval_time_hours st == inject_Z 3)%Q.
Proof.
  split; [by vm_compute|]. eexists. split; [reflexivity|].
  split_and!; by vm_compute.
Qed.

(** * Further properties of the code *)

(** ** The compulsory gate and the edges of the aggregation *)

Lemma calculate_expense_status_eq (s : Session) (expense : Expense.t) :
  _calculate_expense_status (Some expense) s
  = (Ok (expense_status_of (approvals_of_expense (working s) expense)
                           (active_rules_of_category (working s) expense)), s).
Proof. reflexivity. Qed.

(** X1: a rejected compulsory approval makes the aggregate [rejected] when
    no compulsory approval of the expense is pending, whatever the
    necessary approvals are. *)
Theorem compulsory_veto (s : Session) (expense : Expense.t)
    (compulsory_approvals necessary_approvals : list Approval.t) :
  group_approvals (active_rules_of_category (working s) expense)
                  (approvals_of_expense (working s) expense)
  = (compulsory_approvals, necessary_approvals) →
  (∃ a, a ∈ compulsory_approvals
        ∧ Approval.status a = ApprovalStatus.rejected) →
  (∀ a, a ∈ compulsory_approvals
        → Approval.status a ≠ ApprovalStatus.pending) →
  _calculate_expense_status (Some expense) s = (Ok ExpenseStatus.rejected, s).
Proof.
  intros Hg Hr Hp. rewrite calculate_expense_status_eq.
  by rewrite (compulsory_veto_without_pending _ _ _ _ Hg Hr Hp).
Qed.

Lemma check_compulsory_pending (l : list Approval.t) :
  (∃ a, a ∈ l ∧ Approval.status a = ApprovalStatus.pending) →
  (∀ a, a ∈ l → Approval.status a ≠ ApprovalStatus.rejected) →
  check_compulsory l = Some ExpenseStatus.pending.
Proof.
  induction l as [|b l IH]; intros (a & Ha & Hp) Hr; [by inversion Ha|].
  cbn [check_compulsory]. destruct (Approval.status b) eqn:E; [done| |].
  - apply elem_of_cons in Ha as [->|Ha]; [congruence|].
    apply IH; [by exists a|]. intros; apply Hr; by right.
  - exfalso. by apply (Hr b); [left|].
Qed.

(** X2: a pending compulsory approval makes the aggregate [pending] when
    no compulsory approval of the expense is rejected, whatever the tally
    of the necessary approvals is. *)
Theorem compulsory_blocking (s : Session) (expense : Expense.t)
    (compulsory_approvals necessary_approvals : list Approval.t) :
  group_approvals (active_rules_of_category (working s) expense)
                  (approvals_of_expense (working s) expense)
  = (compulsory_approvals, necessary_approvals) →
  (∃ a, a ∈ compulsory_approvals
        ∧ Approval.status a = ApprovalStatus.pending) →
  (∀ a, a ∈ compulsory_approvals
        → Approval.status a ≠ ApprovalStatus.rejected) →
  _calculate_expense_status (Some expense) s = (Ok ExpenseStatus.pending, s).
Proof.
  intros Hg Hp Hr. rewrite calculate_expense_status_eq.
  unfold expense_status_of.
  destruct (approvals_of_expense _ _) as [|a0 l]; [done|].
  rewrite Hg. by rewrite (check_compulsory_pending _ Hp Hr).
Qed.

Lemma group_approvals_no_rule (rules : list ApprovalRule.t)
    (l : list Approval.t) :
  (∀ a r, a ∈ l → r ∈ rules →
          ApprovalRule.user_id r ≠ Approval.approver_id a) →
  group_approvals rules l = ([], []).
Proof.
  induction l as [|a l IH]; intros H; [done|].
  cbn [group_approvals]. rewrite IH by (intros; apply H; [by right|done]).
  destruct (find _ rules) as [r|] eqn:E; [|done].
  apply find_some in E as [Hin Heq].
  apply bool_decide_eq_true in Heq.
  exfalso. apply (H a r); [by left| by apply list_elem_of_In |done].
Qed.

(** X3: an expense that has approvals, none of whose approvers has an
    active rule of the expense's category, is [approved]: approvals
    without a rule give no vote, and with both groups empty no gate
    objects. *)
Theorem approvals_without_rules_approve (s : Session) (expense : Expense.t) :
  approvals_of_expense (working s) expense ≠ [] →
  (∀ a r, a ∈ approvals_of_expense (working s) expense →
          r ∈ active_rules_of_category (working s) expense →
          ApprovalRule.user_id r ≠ Approval.approver_id a) →
  _calculate_expense_status (Some expense) s = (Ok ExpenseStatus.approved, s).
Proof.
  intros Hne H. rewrite calculate_expense_status_eq.
  unfold expense_status_of.
  destruct (approvals_of_expense _ _) as [|a0 l] eqn:E; [done|].
  by rewrite (group_approvals_no_rule _ _ H).
Qed.

Lemma group_approvals_elem_of (rules : list ApprovalRule.t)
    (l c n : list Approval.t) :
  group_approvals rules l = (c, n) →
  (∀ a, a ∈ c → a ∈ l) ∧ (∀ a, a ∈ n → a ∈ l)
  ∧ (length c + length n ≤ length l)%nat.
Proof.
  revert c n. induction l as [|a l IH]; intros c n Hg.
  { inversion Hg; subst. split_and!; [by intros ? H; inversion H..|done]. }
  cbn [group_approvals] in Hg.
  destruct (group_approvals rules l) as [c0 n0].
  destruct (IH c0 n0 eq_refl) as (Hc & Hn & Hlen).
  destruct (find _ rules) as [r|].
  - destruct (ApprovalRule.approval_type r); inversion Hg; subst;
      (split_and!; [| |cbn; lia]); intros b Hb;
      try (apply elem_of_cons in Hb as [->|Hb]; [by left|]);
      right; auto.
  - inversion Hg; subst. split_and!; [| |cbn; lia]; intros b Hb; right; auto.
Qed.

(** X4: when every approval of the expense is approved, and there is at
    least one, the aggregate is [approved]. *)
Theorem unanimous_approval (s : Session) (expense : Expense.t) :
  approvals_of_expense (working s) expense ≠ [] →
  (∀ a, a ∈ approvals_of_expense (working s) expense →
        Approval.status a = ApprovalStatus.approved) →
  _calculate_expense_status (Some expense) s = (Ok ExpenseStatus.approved, s).
Proof.
  intros Hne Hall. rewrite calculate_expense_status_eq.
  destruct (group_approvals (active_rules_of_category (working s) expense)
              (approvals_of_expense (working s) expense)) as [c n] eqn:Hg.
  destruct (group_approvals_elem_of _ _ _ _ Hg) as (Hc & Hn & _).
  assert (Hcc : ∀ a, a ∈ c → Approval.status a ≠ ApprovalStatus.rejected
                              ∧ Approval.status a ≠ ApprovalStatus.pending).
  { intros a Ha. rewrite (Hall a) by auto. split; discriminate. }
  destruct n as [|n0 n1] eqn:En.
  - unfold expense_status_of.
    destruct (approvals_of_expense _ _) as [|a0 l]; [done|].
    rewrite Hg. destruct (check_compulsory_all_approved _ Hcc) as [-> ->].
    by rewrite Nat.ltb_irrefl.
  - rewrite (expense_status_of_quorum _ _ _ _ Hg Hcc) by done.
    destruct (Qlt_le_dec _ _) as [Hlt|]; [|done]. exfalso.
    apply approval_percentage_lt_60 in Hlt; [|cbn; lia].
    assert (count_status ApprovalStatus.approved (n0 :: n1)
            = length (n0 :: n1)) as Hcount.
    { apply check_compulsory_all_approved. intros a Ha.
      rewrite (Hall a) by auto. split; discriminate. }
    rewrite Hcount in Hlt. lia.
Qed.

(** X5: when the compulsory gate lets the expense through and none of its
    necessary approvals is approved, be they pending or rejected, the
    aggregate is [rejected]: pending necessary approvals never keep the
    expense pending. *)
Theorem no_necessary_approval_rejects (s : Session) (expense : Expense.t)
    (compulsory_approvals necessary_approvals : list Approval.t) :
  group_approvals (active_rules_of_category (working s) expense)
                  (approvals_of_expense (working s) expense)
  = (compulsory_approvals, necessary_approvals) →
  (∀ a, a ∈ compulsory_approvals →
        Approval.status a = ApprovalStatus.approved) →
  necessary_approvals ≠ [] →
  (∀ a, a ∈ necessary_approvals →
        Approval.status a ≠ ApprovalStatus.approved) →
  _calculate_expense_status (Some expense) s = (Ok ExpenseStatus.rejected, s).
Proof.
  intros Hg Hc Hne Hn. rewrite calculate_expense_status_eq.
  rewrite (expense_status_of_quorum _ _ _ _ Hg); [|
    intros a Ha; rewrite (Hc a Ha); split; discriminate | done].
  destruct (Qlt_le_dec _ _) as [|Hle]; [done|]. exfalso.
  apply Qle_not_lt in Hle. apply Hle.
  apply approval_percentage_lt_60.
  - destruct necessary_approvals; [done|cbn; lia].
  - assert (count_status ApprovalStatus.approved necessary_approvals = 0%nat)
      as ->.
    { unfold count_status. rewrite filter_none; [done|]. exact Hn. }
    destruct necessary_approvals; [done|cbn; lia].
Qed.

(** ** What the operations leave alone *)

Lemma keeps_ret {A} (I : Session → Prop) (a : A) : keeps I (mret a).
Proof. by intros s. Qed.

Lemma keeps_raise {A} (I : Session → Prop) (e : Exception) :
  keeps I (raise e : DB A).
Proof. by intros s. Qed.

Lemma keeps_bind {A B} (I : Session → Prop) (m : DB A) (k : A → DB B) :
  keeps I m → (∀ a, keeps I (k a)) → keeps I (m ≫= k).
Proof.
  intros Hm Hk s Hs. unfold mbind, DB_bind. specialize (Hm s Hs).
  destruct (m s) as [[a|e] s']; [by apply Hk|done].
Qed.

Lemma keeps_try_except {A} (I : Session → Prop) (body : DB A)
    (handler : Exception → DB A) :
  keeps I body → (∀ e, keeps I (handler e)) → keeps I (try_except body handler).
Proof.
  intros Hm Hh s Hs. unfold try_except. specialize (Hm s Hs).
  destruct (body s) as [[a|e] s']; [done|by apply Hh].
Qed.

Lemma keeps_get_working (I : Session → Prop) : keeps I get_working.
Proof. by intros s. Qed.

Lemma keeps_scalar_one_or_none {A} (I : Session → Prop) (rows : list A) :
  keeps I (scalar_one_or_none rows).
Proof. intros s Hs. by destruct rows as [|r [|r' rows]]. Qed.

Lemma keeps_attr {A} (I : Session → Prop) (o : option A) : keeps I (attr o).
Proof. intros s Hs. by destruct o. Qed.

Lemma keeps_for_each {A} (I : Session → Prop) (l : list A)
    (body : A → DB unit) :
  (∀ x, keeps I (body x)) → keeps I (for_each l body).
Proof.
  intros Hb. induction l as [|x l IH]; [apply keeps_ret|].
  cbn [for_each]. apply keeps_bind; [apply Hb|by intros _].
Qed.

(** An invariant that the primitive operations of a session keep is kept
    by the services built from them. *)
Section Stable.
Context (I : Session → Prop).
Hypothesis stable_commit : keeps I db_commit.
Hypothesis stable_rollback : keeps I db_rollback.
Hypothesis stable_uuid4 : keeps I uuid4.
Hypothesis stable_approvals :
  ∀ g, keeps I (modify_working (with_approvals g)).
Hypothesis stable_notifications :
  ∀ g, keeps I (modify_working (with_notifications g)).
Hypothesis stable_audit_logs :
  ∀ g, keeps I (modify_working (with_audit_logs g)).

(** One step of a proof that an operation keeps [I]: the structure of the
    operation is followed down to the primitive operations. *)
Ltac keeps_step :=
  lazymatch goal with
  | |- keeps _ (if ?b then _ else _) => destruct b
  | |- keeps _ (match ?x with _ => _ end) => destruct x
  | |- keeps _ (mret _) => apply keeps_ret
  | |- keeps _ (raise _) => apply keeps_raise
  | |- keeps _ get_working => apply keeps_get_working
  | |- keeps _ (scalar_one_or_none _) => apply keeps_scalar_one_or_none
  | |- keeps _ (attr _) => apply keeps_attr
  | |- keeps _ db_commit => apply stable_commit
  | |- keeps _ db_rollback => apply stable_rollback
  | |- keeps _ uuid4 => apply stable_uuid4
  | |- keeps _ (modify_working _) =>
      first [ apply stable_approvals | apply stable_notifications
            | apply stable_audit_logs ]
  | |- keeps _ (try_except _ _) => apply keeps_try_except; [|intros ?]
  | |- keeps _ (_ ≫= _) => apply keeps_bind; [|intros ?]
  end.

Lemma keeps_create_notification user_id type title message :
  keeps I (create_notification user_id type title message).
Proof. unfold create_notification. repeat keeps_step. Qed.




Lemma keeps_check_overdue_approvals self now :
  keeps I (check_overdue_approvals self now).
Proof.
  unfold check_overdue_approvals.
  repeat first [ apply keeps_for_each; intros ?; unfold notify_overdue
               | apply keeps_create_notification | keeps_step ].
Qed.
End Stable.

(** The part [f] of the tables stays what it is when no write touches
    it. *)
Section Fixed.
Context {X : Type} (f : Tables → X) (v : X).




End Fixed.





(** ** Commits that pass and commits that fail *)

Lemma db_commit_passes (s : Session) :
  head (faults s) ≠ Some true →
  uq_approvals_expense_approver (approvals (working s)) = true →
  db_commit s
  = (Ok (), mkSession (working s) (working s) (tail (faults s)) (uuid_seed s)).
Proof.
  intros Hf Hu. unfold db_commit. rewrite Hu.
  by destruct (faults s) as [|[|] fs].
Qed.

Lemma db_commit_fails (s : Session) (fs : list bool) :
  faults s = true :: fs →
  db_commit s
  = (Raised OperationalError,
     mkSession (committed s) (working s) fs (uuid_seed s)).
Proof. intros Hf. unfold db_commit. by rewrite Hf. Qed.

Lemma log_action_passes (s : Session) company_id user_id action rtype rid :
  head (faults s) ≠ Some true →
  uq_approvals_expense_approver (approvals (working s)) = true →
  let t := with_audit_logs
             (λ l, l ++ [AuditLog.mk company_id user_id action rtype rid])
             (working s) in
  log_action company_id user_id action rtype rid s
  = (Ok (AuditLog.mk company_id user_id action rtype rid),
     mkSession t t (tail (faults s)) (uuid_seed s)).
Proof.
  intros Hf Hu t. unfold log_action.
  apply try_except_Ok. db_step.
  db_step_with ltac:(by apply db_commit_passes). reflexivity.
Qed.

Lemma log_action_fails (s : Session) (fs : list bool)
    company_id user_id action rtype rid :
  faults s = true :: fs →
  log_action company_id user_id action rtype rid s
  = (Raised OperationalError,
     mkSession (committed s) (committed s) fs (uuid_seed s)).
Proof.
  intros Hf. unfold log_action.
  erewrite try_except_Raised; cycle 1.
  { db_step. apply bind_Raised. by apply db_commit_fails. }
  reflexivity.
Qed.

Lemma create_notification_passes (s : Session) user_id type title message :
  head (faults s) ≠ Some true →
  uq_approvals_expense_approver (approvals (working s)) = true →
  let t := with_notifications
             (λ l, l ++ [Notification.mk user_id type title message])
             (working s) in
  create_notification user_id type title message s
  = (Ok (Notification.mk user_id type title message),
     mkSession t t (tail (faults s)) (uuid_seed s)).
Proof.
  intros Hf Hu t. unfold create_notification.
  apply try_except_Ok. db_step.
  db_step_with ltac:(by apply db_commit_passes). reflexivity.
Qed.

Lemma create_notification_fails (s : Session) (fs : list bool)
    user_id type title message :
  faults s = true :: fs →
  create_notification user_id type title message s
  = (Raised OperationalError,
     mkSession (committed s) (committed s) fs (uuid_seed s)).
Proof.
  intros Hf. unfold create_notification.
  erewrite try_except_Raised; cycle 1.
  { db_step. apply bind_Raised. by apply db_commit_fails. }
  reflexivity.
Qed.

(** ** More on decision processing *)

(** A decision on an approval that does not exist, or whose approver is
    somebody else, is refused with one and the same message, and the
    session is left as it was. *)
Lemma process_approval_not_found (s : Session) (approval_id : UUID)
    (status : ApprovalStatus.t) (comments : option string)
    (approver : User.t) (now : datetime) :
  (∀ a, a ∈ approvals (working s) →
        ¬ (Approval.id a = approval_id
           ∧ Approval.approver_id a = User.id approver)) →
  process_approval approval_id status comments approver now s
  = (Ok (false, Some "Approval not found or access denied"), s).
Proof.
  intros H. unfold process_approval. apply try_except_Ok. db_step.
  rewrite (filter_none _ _ H). by db_step.
Qed.

Section Decided.
Context (s : Session) (a : Approval.t) (approver : User.t) (e : Expense.t).
Hypothesis pk : NoDup (map Approval.id (approvals (working s))).
Hypothesis uq :
  uq_approvals_expense_approver (approvals (working s)) = true.
Hypothesis row : a ∈ approvals (working s).
Hypothesis rightful : Approval.approver_id a = User.id approver.
Hypothesis is_pending : Approval.status a = ApprovalStatus.pending.
Hypothesis loaded :
  head (filter (λ e, Expense.id e = Approval.expense_id a)
               (expenses (working s))) = Some e.

Lemma uq_decided d c now :
  uq_approvals_expense_approver
    (update_row Approval.id (decided a d c now) (approvals (working s)))
  = true.
Proof. by rewrite (uq_update_row _ a). Qed.

(** The first statements of [process_approval], up to the mutation of the
    row. *)
Ltac find_row :=
  db_step;
  rewrite (filter_unique_row Approval.id _ _ a);
    [|done|done|done|by intros x [Hx _]];
  db_step;
  rewrite (bool_decide_eq_false_2
             (Approval.status a ≠ ApprovalStatus.pending))
    by (intros Hne; by apply Hne);
  rewrite loaded; db_step.

(** The tables once the decision [d] is written and aggregated. *)
Lemma process_approval_aggregates d c now :
  head (faults s) ≠ Some true →
  head (tail (faults s)) ≠ Some true →
  head (tail (tail (faults s))) ≠ Some true →
  let t1 := with_approvals
              (update_row Approval.id (decided a d c now)) (working s) in
  let st := expense_status_of (approvals_of_expense t1 e)
                              (active_rules_of_category t1 e) in
  ∃ s1,
    process_approval (Approval.id a) d c approver now s = (Ok (true, None), s1)
    ∧ working s1 = committed s1
    ∧ approvals (committed s1) = approvals t1
    ∧ expenses (committed s1)
      = update_row Expense.id (Expense.set_status st e) (expenses (working s))
    ∧ users (committed s1) = users (working s)
    ∧ approval_rules (committed s1) = approval_rules (working s).
Proof.
  intros Hf1 Hf2 Hf3 t1 st. eexists. split.
  { unfold process_approval. apply try_except_Ok. find_row.
    db_step_with ltac:(apply log_action_passes; [done | apply uq_decided]).
    do 3 db_step.
    db_step_with ltac:(apply db_commit_passes; [done | apply uq_decided]).
    db_step_with ltac:(apply create_notification_passes;
                       [done | apply uq_decided]).
    reflexivity. }
  split_and!; reflexivity.
Qed.

Lemma process_approval_first_commit_fails d c now fs :
  faults s = true :: fs →
  process_approval (Approval.id a) d c approver now s
  = (Ok (false, Some "connection to server was lost"),
     mkSession (committed s) (committed s) fs (uuid_seed s)).
Proof.
  intros Hf. unfold process_approval.
  erewrite try_except_Raised; cycle 1.
  { find_row. apply bind_Raised. by apply log_action_fails. }
  reflexivity.
Qed.

Lemma process_approval_second_commit_fails d c now fs :
  faults s = false :: true :: fs →
  ∃ s1,
    process_approval (Approval.id a) d c approver now s
    = (Ok (false, Some "connection to server was lost"), s1)
    ∧ working s1 = committed s1
    ∧ approvals (committed s1)
      = update_row Approval.id (decided a d c now) (approvals (working s))
    ∧ expenses (committed s1) = expenses (working s).
Proof.
  intros Hf. eexists. split.
  { unfold process_approval. erewrite try_except_Raised; cycle 1.
    { find_row.
      db_step_with ltac:(apply log_action_passes;
                         [by rewrite Hf | apply uq_decided]).
      do 3 db_step. apply bind_Raised.
      apply db_commit_fails. cbn [faults]. by rewrite Hf. }
    reflexivity. }
  split_and!; reflexivity.
Qed.

Lemma process_approval_third_commit_fails d c now fs :
  faults s = false :: false :: true :: fs →
  let t1 := with_approvals
              (update_row Approval.id (decided a d c now)) (working s) in
  let st := expense_status_of (approvals_of_expense t1 e)
                              (active_rules_of_category t1 e) in
  ∃ s1,
    process_approval (Approval.id a) d c approver now s
    = (Ok (false, Some "connection to server was lost"), s1)
    ∧ working s1 = committed s1
    ∧ approvals (committed s1) = approvals t1
    ∧ expenses (committed s1)
      = update_row Expense.id (Expense.set_status st e) (expenses (working s))
    ∧ approval_rules (committed s1) = approval_rules (working s).
Proof.
  intros Hf t1 st. eexists. split.
  { unfold process_approval. erewrite try_except_Raised; cycle 1.
    { find_row.
      db_step_with ltac:(apply log_action_passes;
                         [by rewrite Hf | apply uq_decided]).
      do 3 db_step.
      db_step_with ltac:(apply db_commit_passes;
                         [cbn [faults]; by rewrite Hf | apply uq_decided]).
      apply bind_Raised. apply create_notification_fails.
      cbn [faults]. by rewrite Hf. }
    reflexivity. }
  split_and!; reflexivity.
Qed.
End Decided.

Lemma lookup_updated_row {A} (key : A → UUID) (l : list A) (new old : A) :
  NoDup (map key l) → old ∈ l → key new = key old →
  filter (λ x, key x = key old) (update_row key new l) = [new].
Proof.
  intros Hnd Hin Hk. apply (filter_unique_row key); [| |done|].
  - rewrite map_update_row; [done|]. by intros r _ ->.
  - by apply (elem_of_update_row _ _ old).
  - intros x Hx. by rewrite Hx, Hk.
Qed.

Lemma update_row_other {A} (key : A → UUID) (l : list A) (new x : A) :
  x ∈ l → key x ≠ key new → x ∈ update_row key new l.
Proof.
  intros Hin Hne. unfold update_row.
  apply list_elem_of_fmap. exists x. by rewrite bool_decide_eq_false_2.
Qed.

Lemma expense_of_approval (t : Tables) (a : Approval.t) (e : Expense.t) :
  NoDup (map Expense.id (expenses t)) → e ∈ expenses t →
  Expense.id e = Approval.expense_id a →
  head (filter (λ e, Expense.id e = Approval.expense_id a) (expenses t))
  = Some e.
Proof.
  intros Hnd Hin Hid.
  by rewrite (filter_unique_row Expense.id _ _ e);
    [| | | |intros x Hx; rewrite Hx].
Qed.

(** X6: when a decision goes through, the status stored on the expense is
    the aggregate of the approvals as the decision leaves them, and no
    other column of the expense changes. *)
Theorem decision_stores_aggregate (s : Session) (a : Approval.t)
    (approver : User.t) (e : Expense.t) (d : ApprovalStatus.t)
    (c : option string) (now : datetime) :
  faults s = [] →
  NoDup (map Approval.id (approvals (working s))) →
  uq_approvals_expense_approver (approvals (working s)) = true →
  NoDup (map Expense.id (expenses (working s))) →
  a ∈ approvals (working s) →
  Approval.approver_id a = User.id approver →
  Approval.status a = ApprovalStatus.pending →
  e ∈ expenses (working s) →
  Expense.id e = Approval.expense_id a →
  ∃ s1 e',
    process_approval (Approval.id a) d c approver now s = (Ok (true, None), s1)
    ∧ filter (λ x, Expense.id x = Expense.id e) (expenses (committed s1))
      = [e']
    ∧ e' = Expense.set_status (Expense.status e') e
    ∧ _calculate_expense_status (Some e') s1 = (Ok (Expense.status e'), s1).
Proof.
  intros Hf Hpk Huq Hepk Hrow Hr Hp He Heid.
  pose proof (expense_of_approval _ a e Hepk He Heid) as Hload.
  destruct (process_approval_aggregates s a approver e Hpk Huq Hrow Hr Hp
              Hload d c now) as (s1 & Hrun & Hwc & Ha & Hex & _ & Hrules);
    [by rewrite Hf..|].
  match type of Hex with
  | _ = update_row _ ?e' _ => exists s1, e'
  end.
  split; [exact Hrun|]. split; [|split; [reflexivity|]].
  - rewrite Hex. by apply lookup_updated_row.
  - rewrite calculate_expense_status_eq. do 2 f_equal.
    unfold approvals_of_expense, active_rules_of_category.
    by rewrite Hwc, Ha, Hrules.
Qed.

(** X7: a commit that fails inside [process_approval] is reported as a
    failure of the decision.  When it is the first commit, nothing is
    stored; when it is the commit of the expense status, the decision is
    already stored and the expense keeps its old status; when it is the
    commit of the notification, the decision and the new expense status
    are both stored. *)
Theorem decision_commit_failures (s : Session) (a : Approval.t)
    (approver : User.t) (e : Expense.t) (d : ApprovalStatus.t)
    (c : option string) (now : datetime) (fs : list bool) :
  NoDup (map Approval.id (approvals (working s))) →
  uq_approvals_expense_approver (approvals (working s)) = true →
  NoDup (map Expense.id (expenses (working s))) →
  a ∈ approvals (working s) →
  Approval.approver_id a = User.id approver →
  Approval.status a = ApprovalStatus.pending →
  e ∈ expenses (working s) →
  Expense.id e = Approval.expense_id a →
  let failed := Ok (false, Some "connection to server was lost") in
  let stored (s1 : Session) :=
    filter (λ x, Approval.id x = Approval.id a) (approvals (committed s1))
    = [Approval.mk (Approval.id a) (Approval.expense_id a)
         (Approval.approver_id a) d c (Some now) (Approval.created_at a)] in
  (faults s = true :: fs →
   ∃ s1, process_approval (Approval.id a) d c approver now s = (failed, s1)
         ∧ committed s1 = committed s ∧ working s1 = committed s)
  ∧ (faults s = false :: true :: fs →
     ∃ s1, process_approval (Approval.id a) d c approver now s = (failed, s1)
           ∧ stored s1
           ∧ expenses (committed s1) = expenses (working s))
  ∧ (faults s = false :: false :: true :: fs →
     ∃ s1 e',
       process_approval (Approval.id a) d c approver now s = (failed, s1)
       ∧ stored s1
       ∧ filter (λ x, Expense.id x = Expense.id e) (expenses (committed s1))
         = [e']
       ∧ _calculate_expense_status (Some e') s1
         = (Ok (Expense.status e'), s1)).
Proof.
  intros Hpk Huq Hepk Hrow Hr Hp He Heid failed stored.
  pose proof (expense_of_approval _ a e Hepk He Heid) as Hload.
  split_and!; intros Hf.
  - eexists. split; [by apply (process_approval_first_commit_fails s a
                                 approver e)|done].
  - destruct (process_approval_second_commit_fails s a approver e Hpk Huq
                Hrow Hr Hp Hload d c now fs Hf) as (s1 & Hrun & _ & Ha & Hex).
    exists s1. split; [exact Hrun|]. split; [|exact Hex].
    unfold stored. rewrite Ha. by apply (lookup_updated_row Approval.id).
  - destruct (process_approval_third_commit_fails s a approver e Hpk Huq
                Hrow Hr Hp Hload d c now fs Hf)
      as (s1 & Hrun & Hwc & Ha & Hex & Hrules).
    match type of Hex with
    | _ = update_row _ ?e' _ => exists s1, e'
    end.
    split; [exact Hrun|]. split_and!.
    + unfold stored. rewrite Ha. by apply (lookup_updated_row Approval.id).
    + rewrite Hex. by apply lookup_updated_row.
    + rewrite calculate_expense_status_eq. do 2 f_equal.
      unfold approvals_of_expense, active_rules_of_category.
      by rewrite Hwc, Ha, Hrules.
Qed.

(** X8: on a fresh session, whichever commits fail, [process_approval]
    returns; afterwards the session holds nothing uncommitted, the
    approval rows are either as they were or as they were with the
    decision written into the decided row, success is reported only in
    the second case, and all other rows stay as they were. *)
Theorem decision_outcomes (s : Session) (a : Approval.t) (approver : User.t)
    (e : Expense.t) (d : ApprovalStatus.t) (c : option string)
    (now : datetime) :
  working s = committed s →
  NoDup (map Approval.id (approvals (working s))) →
  uq_approvals_expense_approver (approvals (working s)) = true →
  NoDup (map Expense.id (expenses (working s))) →
  a ∈ approvals (working s) →
  Approval.approver_id a = User.id approver →
  Approval.status a = ApprovalStatus.pending →
  e ∈ expenses (working s) →
  Expense.id e = Approval.expense_id a →
  let decided_rows :=
    update_row Approval.id
      (Approval.mk (Approval.id a) (Approval.expense_id a)
         (Approval.approver_id a) d c (Some now) (Approval.created_at a))
      (approvals (committed s)) in
  ∃ r s1,
    process_approval (Approval.id a) d c approver now s = (Ok r, s1)
    ∧ working s1 = committed s1
    ∧ (approvals (committed s1) = approvals (committed s)
       ∨ approvals (committed s1) = decided_rows)
    ∧ (r.1 = true → approvals (committed s1) = decided_rows)
    ∧ ∀ x, x ∈ approvals (committed s) → Approval.id x ≠ Approval.id a →
           x ∈ approvals (committed s1).
Proof.
  intros Hwc Hpk Huq Hepk Hrow Hr Hp He Heid decided_rows.
  pose proof (expense_of_approval _ a e Hepk He Heid) as Hload.
  assert (Hcases :
    ∃ r s1,
      process_approval (Approval.id a) d c approver now s = (Ok r, s1)
      ∧ working s1 = committed s1
      ∧ (approvals (committed s1) = approvals (committed s) ∧ r.1 = false
         ∨ approvals (committed s1) = decided_rows)).
  { subst decided_rows. rewrite <- Hwc.
    destruct (faults s) as [|[|] [|[|] [|[|] fs]]] eqn:Hf.
    all: first
      [ destruct (process_approval_aggregates s a approver e Hpk Huq
                    Hrow Hr Hp Hload d c now)
          as (s1 & Hrun & Hw1 & Ha & _);
        [by rewrite Hf..|];
        exists (true, None), s1; split_and!; [done|done|by right]
      | eexists _, _; split_and!;
        [ eapply (process_approval_first_commit_fails s a approver e);
          [done..|exact Hf]
        | done
        | left; by rewrite Hwc ]
      | destruct (process_approval_second_commit_fails s a approver e Hpk
                    Huq Hrow Hr Hp Hload d c now _ Hf)
          as (s1 & Hrun & Hw1 & Ha & _);
        exists (false, Some "connection to server was lost"), s1;
        split_and!; [done|done|by right]
      | destruct (process_approval_third_commit_fails s a approver e Hpk
                    Huq Hrow Hr Hp Hload d c now _ Hf)
          as (s1 & Hrun & Hw1 & Ha & _);
        exists (false, Some "connection to server was lost"), s1;
        split_and!; [done|done|by right] ]. }
  destruct Hcases as (r & s1 & Hrun & Hw1 & Hor).
  exists r, s1. split_and!; [done|done| | |].
  - destruct Hor as [[-> _]| ->]; [by left|by right].
  - intros Hr1. destruct Hor as [[_ Hr0]| ->]; [congruence|done].
  - intros x Hx Hne. destruct Hor as [[-> _]| ->]; [done|].
    by apply update_row_other.
Qed.

(** ** The endpoints of [app/api/approvals.py] *)

Lemma manager_or_admin_Ok (u : User.t) (s : Session) :
  User.is_active u = true →
  User.role u = UserRole.manager ∨ User.role u = UserRole.admin →
  manager_or_admin u s = (Ok u, s).
Proof.
  intros Ha Hr. unfold manager_or_admin, get_current_active_user,
    require_manager_or_admin.
  rewrite Ha. cbn [negb]. db_step. by rewrite bool_decide_eq_true_2.
Qed.

Lemma manager_or_admin_employee (u : User.t) (s : Session) :
  User.is_active u = true → User.role u = UserRole.employee →
  manager_or_admin u s
  = (Raised (HTTPException 403 "Manager or admin access required"), s).
Proof.
  intros Ha Hr. unfold manager_or_admin, get_current_active_user,
    require_manager_or_admin.
  rewrite Ha. cbn [negb]. db_step. rewrite bool_decide_eq_false_2; [done|].
  rewrite Hr. by intros [|].
Qed.

(** X9: an employee is refused with 403 by every endpoint that decides,
    rewrites or lists approvals for an approver, and the session is left
    as it was. *)
Theorem employees_are_refused (u : User.t) (s : Session) :
  User.is_active u = true → User.role u = UserRole.employee →
  let refused {A} : Outcome A * Session :=
    (Raised (HTTPException 403 "Manager or admin access required"), s) in
  (∀ id c now, api_approvals.approve_expense id c u now s = refused)
  ∧ (∀ id c now, api_approvals.reject_expense id c u now s = refused)
  ∧ (∀ ids c now, api_approvals.bulk_approve_expenses ids c u now s = refused)
  ∧ (∀ ids c now, api_approvals.bulk_reject_expenses ids c u now s = refused)
  ∧ (∀ id data, update_approval id data u s = refused)
  ∧ (∀ p, api_approvals.get_pending_approvals u p s = refused)
  ∧ (∀ p, api_approvals.get_approval_history u p s = refused).
Proof.
  intros Ha Hr refused.
  pose proof (manager_or_admin_employee u s Ha Hr) as Hm.
  split_and!; intros;
    try (apply bind_Raised; exact Hm).
  unfold update_approval. apply bind_Raised.
  unfold require_manager_or_admin. rewrite bool_decide_eq_false_2; [done|].
  rewrite Hr. by intros [|].
Qed.

Lemma process_approval_returns approval_id status comments approver now
    (s : Session) :
  ∃ r s', process_approval approval_id status comments approver now s
          = (Ok r, s').
Proof.
  unfold process_approval, try_except.
  match goal with |- context [match ?m s with _ => _ end] =>
    destruct (m s) as [[r|e] s'] end; by eexists _, _.
Qed.

Lemma bulk_process_returns status comments u now (approval_ids : list UUID) :
  ∀ (results : list BulkResult.t) (n : nat) (s : Session),
    ∃ new s',
      api_approvals.bulk_process status approval_ids comments u now results n s
      = (Ok (results ++ new,
             (n + length (filter (λ r, BulkResult.status r
                                       = ApprovalStatus.value status)
                                 new))%nat),
         s')
      ∧ map BulkResult.approval_id new = approval_ids
      ∧ ∀ r, r ∈ new →
             BulkResult.status r = ApprovalStatus.value status
             ∨ BulkResult.status r = "failed".
Proof.
  induction approval_ids as [|id ids IH]; intros results n s.
  { exists [], s. rewrite app_nil_r, Nat.add_0_r.
    split_and!; [done|done|]. intros r Hr. by inversion Hr. }
  cbn [api_approvals.bulk_process].
  destruct (process_approval_returns id status comments u now s)
    as ([success msg] & s1 & Hrun).
  set (item := if success
               then BulkResult.mk id (ApprovalStatus.value status) None
               else BulkResult.mk id "failed" msg).
  destruct (IH (results ++ [item])
              (if success then S n else n) s1)
    as (new & s' & Hrest & Hids & Hst).
  exists (item :: new), s'. split_and!.
  - rewrite (bind_Ok _ _ s (results ++ [item],
                             if success then S n else n) s1); cycle 1.
    { apply try_except_Ok. erewrite bind_Ok by exact Hrun.
      cbv beta iota. subst item. by destruct success. }
    cbv beta iota. rewrite Hrest. rewrite <- app_assoc. cbn [app].
    do 3 f_equal. rewrite filter_cons. subst item.
    destruct success.
    + rewrite decide_True by done. cbn [length]. lia.
    + rewrite decide_False; [done|]. cbn. by destruct status.
  - cbn. rewrite Hids. f_equal. subst item. by destruct success.
  - intros r Hr. apply elem_of_cons in Hr as [->|Hr]; [|by apply Hst].
    subst item. destruct success; [by left|by right].
Qed.

(** X10: for a manager or an administrator the bulk endpoints always
    answer: the results list the requested ids in the order of the
    request, one result each; [successful] is the number of results that
    carry the decided status, [failed] the number of failed ones, and the
    two add up to [total], the number of requested ids. *)
Theorem bulk_endpoints_account (u : User.t) (approval_ids : list UUID)
    (comments : option string) (now : datetime) (s : Session) :
  User.is_active u = true →
  User.role u = UserRole.manager ∨ User.role u = UserRole.admin →
  let accounted (status : string) (resp : BulkResponse.t) :=
    map BulkResult.approval_id (BulkResponse.results resp) = approval_ids
    ∧ BulkResponse.total resp = length approval_ids
    ∧ BulkResponse.successful resp
      = length (filter (λ r, BulkResult.status r = status)
                       (BulkResponse.results resp))
    ∧ BulkResponse.failed resp
      = Z.of_nat (length (filter (λ r, BulkResult.status r = "failed")
                                 (BulkResponse.results resp)))
    ∧ Z.of_nat (BulkResponse.successful resp) + BulkResponse.failed resp
      = Z.of_nat (BulkResponse.total resp) in
  (∃ resp s',
     api_approvals.bulk_approve_expenses approval_ids comments u now s
     = (Ok resp, s')
     ∧ accounted "approved" resp)
  ∧ (∃ resp s',
       api_approvals.bulk_reject_expenses approval_ids comments u now s
       = (Ok resp, s')
       ∧ accounted "rejected" resp).
Proof.
  intros Ha Hr accounted.
  assert (Hcount : ∀ status (new : list BulkResult.t),
            status = ApprovalStatus.approved
            ∨ status = ApprovalStatus.rejected →
            (∀ r, r ∈ new →
                  BulkResult.status r = ApprovalStatus.value status
                  ∨ BulkResult.status r = "failed") →
            (length (filter (λ r, BulkResult.status r
                                  = ApprovalStatus.value status) new)
             + length (filter (λ r, BulkResult.status r = "failed") new)
             = length new)%nat).
  { intros status new Hs. induction new as [|r new IH]; intros H; [done|].
    rewrite !filter_cons. cbn [length].
    specialize (IH (λ r Hr, H r (list_elem_of_further _ _ _ Hr))).
    destruct (H r) as [Hv|Hv]; [by left| |]; rewrite !Hv.
    - rewrite decide_True by done. rewrite decide_False.
      + cbn [length]. lia.
      + by destruct Hs as [-> | ->].
    - rewrite decide_False by (by destruct Hs as [-> | ->]).
      rewrite decide_True by done. cbn [length]. lia. }
  split.
  - destruct (bulk_process_returns ApprovalStatus.approved comments u now
                approval_ids [] 0%nat s) as (new & s' & Hrun & Hids & Hst).
    eexists _, s'. split.
    { unfold api_approvals.bulk_approve_expenses.
      erewrite bind_Ok by (by apply manager_or_admin_Ok).
      apply try_except_Ok. erewrite bind_Ok by exact Hrun. reflexivity. }
    pose proof (Hcount ApprovalStatus.approved new (or_introl eq_refl) Hst)
      as Hc.
    assert (length new = length approval_ids) as Hlen
      by (by rewrite <- Hids, length_map).
    unfold accounted.
    cbn [BulkResponse.results BulkResponse.total BulkResponse.successful
         BulkResponse.failed app Nat.add ApprovalStatus.value] in *.
    split_and!; [done|done|done|lia|lia].
  - destruct (bulk_process_returns ApprovalStatus.rejected comments u now
                approval_ids [] 0%nat s) as (new & s' & Hrun & Hids & Hst).
    eexists _, s'. split.
    { unfold api_approvals.bulk_reject_expenses.
      erewrite bind_Ok by (by apply manager_or_admin_Ok).
      apply try_except_Ok. erewrite bind_Ok by exact Hrun. reflexivity. }
    pose proof (Hcount ApprovalStatus.rejected new (or_intror eq_refl) Hst)
      as Hc.
    assert (length new = length approval_ids) as Hlen
      by (by rewrite <- Hids, length_map).
    unfold accounted.
    cbn [BulkResponse.results BulkResponse.total BulkResponse.successful
         BulkResponse.failed app Nat.add ApprovalStatus.value] in *.
    split_and!; [done|done|done|lia|lia].
Qed.

(** X11: a manager who asks to approve, reject or rewrite an approval that
    does not exist or that is assigned to another approver is refused,
    with 400 and the message of the service by the two decision endpoints
    and with 404 by [PUT]; nothing tells the two cases apart and the
    session is left as it was. *)
Theorem not_the_approver (u : User.t) (approval_id : UUID) (s : Session) :
  User.is_active u = true →
  User.role u = UserRole.manager ∨ User.role u = UserRole.admin →
  (∀ a, a ∈ approvals (working s) →
        ¬ (Approval.id a = approval_id ∧ Approval.approver_id a = User.id u)) →
  (∀ c now,
     api_approvals.approve_expense approval_id c u now s
     = (Raised (HTTPException 400 "Approval not found or access denied"), s))
  ∧ (∀ c now,
       api_approvals.reject_expense approval_id c u now s
       = (Raised (HTTPException 400 "Approval not found or access denied"), s))
  ∧ (∀ data,
       update_approval approval_id data u s
       = (Raised (HTTPException 404 "Approval not found or access denied"), s)).
Proof.
  intros Ha Hr Hnone. split_and!; intros.
  - unfold api_approvals.approve_expense.
    erewrite bind_Ok by (by apply manager_or_admin_Ok). unfold http_errors.
    erewrite try_except_Raised; cycle 1.
    { erewrite bind_Ok by (by apply process_approval_not_found). done. }
    done.
  - unfold api_approvals.reject_expense.
    erewrite bind_Ok by (by apply manager_or_admin_Ok). unfold http_errors.
    erewrite try_except_Raised; cycle 1.
    { erewrite bind_Ok by (by apply process_approval_not_found). done. }
    done.
  - unfold update_approval, require_manager_or_admin.
    rewrite bool_decide_eq_true_2 by done. db_step.
    erewrite try_except_Raised; cycle 1.
    { db_step. rewrite (filter_none _ _ Hnone). by db_step. }
    done.
Qed.


(** ** Ordering and paging *)

Section SortBy.
Context {A : Type} (key : A → Z).

Lemma insert_by_perm (x : A) (l : list A) : insert_by key x l ≡ₚ x :: l.
Proof.
  induction l as [|y l IH]; [done|]. cbn [insert_by].
  destruct (key x <=? key y); [done|].
  rewrite IH. apply perm_swap.
Qed.

Lemma sort_by_perm (l : list A) : sort_by key l ≡ₚ l.
Proof.
  unfold sort_by. induction l as [|x l IH]; [done|].
  cbn [foldr]. by rewrite insert_by_perm, IH.
Qed.

Lemma insert_by_sorted (x : A) (l : list A) :
  StronglySorted (λ a b, key a ≤ key b) l →
  StronglySorted (λ a b, key a ≤ key b) (insert_by key x l).
Proof.
  induction l as [|y l IH]; intros Hs; cbn [insert_by].
  { apply SSorted_cons; [apply SSorted_nil|apply Forall_nil_2]. }
  apply StronglySorted_cons in Hs as [Hy Hs].
  destruct (Z.leb_spec (key x) (key y)) as [Hle|Hlt].
  - apply SSorted_cons; [by apply SSorted_cons|].
    apply Forall_cons. split; [done|].
    eapply Forall_impl; [exact Hy|]. cbn. intros; lia.
  - apply SSorted_cons; [by apply IH|].
    rewrite Forall_forall. intros z Hz.
    rewrite insert_by_perm in Hz. apply elem_of_cons in Hz as [->|Hz]; [lia|].
    rewrite Forall_forall in Hy. by apply Hy.
Qed.

Lemma sort_by_sorted (l : list A) :
  StronglySorted (λ a b, key a ≤ key b) (sort_by key l).
Proof.
  unfold sort_by. induction l as [|x l IH]; [apply SSorted_nil|].
  cbn [foldr]. by apply insert_by_sorted.
Qed.

(** Sorting a sorted list changes nothing. *)
Lemma sort_by_sorted_id (l : list A) :
  StronglySorted (λ a b, key a ≤ key b) l → sort_by key l = l.
Proof.
  unfold sort_by. induction l as [|x l IH]; intros Hs; [done|].
  apply StronglySorted_cons in Hs as [Hx Hs].
  cbn [foldr]. rewrite IH by done.
  destruct l as [|y l]; [done|]. cbn [insert_by].
  apply Forall_cons in Hx as [Hxy _].
  by destruct (Z.leb_spec (key x) (key y)); [|lia].
Qed.
End SortBy.

Lemma page_sorted {A} (R : relation A) (l : list A) (n m : nat) :
  StronglySorted R l → StronglySorted R (take n (drop m l)).
Proof.
  intros Hs. rewrite <- (take_drop m l) in Hs.
  apply StronglySorted_app_1_r in Hs.
  rewrite <- (take_drop n (drop m l)) in Hs.
  by apply StronglySorted_app_1_l in Hs.
Qed.

Lemma pages_concat {A} (l : list A) (n k : nat) :
  mjoin (map (λ p, take n (drop (p * n) l)) (seq 0 k)) = take (k * n) l.
Proof.
  induction k as [|k IH]; [done|].
  rewrite seq_S, map_app, join_app, IH. cbn [map mjoin list_join].
  rewrite app_nil_r, take_take_drop. f_equal. lia.
Qed.

Lemma StronglySorted_weaken {A} (R1 R2 : relation A) (l : list A) :
  (∀ x y, R1 x y → R2 x y) → StronglySorted R1 l → StronglySorted R2 l.
Proof.
  intros H. induction 1 as [|x l Hs IH Hx]; [apply SSorted_nil|].
  apply SSorted_cons; [done|]. eapply Forall_impl; [exact Hx|]. apply H.
Qed.

Lemma offset_limit_Ok {A} (offset limit : Z) (rows : list A) (s : Session) :
  0 ≤ offset → 0 ≤ limit →
  offset_limit offset limit rows s
  = (Ok (take (Z.to_nat limit) (drop (Z.to_nat offset) rows)), s).
Proof.
  intros Ho Hl. unfold offset_limit.
  by destruct (Z.ltb_spec offset 0), (Z.ltb_spec limit 0); try lia.
Qed.

Lemma offset_limit_negative {A} (offset limit : Z) (rows : list A)
    (s : Session) :
  offset < 0 ∨ limit < 0 →
  offset_limit offset limit rows s = (Raised OperationalError, s).
Proof.
  intros H. unfold offset_limit.
  destruct (Z.ltb_spec offset 0), (Z.ltb_spec limit 0); try done; lia.
Qed.

(** X13: the service lists, for an approver, their pending approvals only,
    newest first and at most [limit] of them, and counts all their pending
    approvals, whatever the page; a negative bound makes it answer with
    the empty page and a total of 0. *)
Theorem pending_page (approver : User.t) (limit offset : Z) (s : Session) :
  let mine_pending :=
    filter (λ a, Approval.approver_id a = User.id approver
                 ∧ Approval.status a = ApprovalStatus.pending)
           (approvals (working s)) in
  (0 ≤ offset → 0 ≤ limit →
   ∃ items,
     get_pending_approvals approver limit offset s
     = (Ok (items, length mine_pending), s)
     ∧ (length items ≤ Z.to_nat limit)%nat
     ∧ (∀ a, a ∈ items → a ∈ mine_pending)
     ∧ StronglySorted (λ a b, Approval.created_at b ≤ Approval.created_at a)
                      items)
  ∧ (offset < 0 ∨ limit < 0 →
     get_pending_approvals approver limit offset s = (Ok ([], 0%nat), s)).
Proof.
  intros mine_pending. split.
  - intros Ho Hl. eexists. split.
    { unfold get_pending_approvals.
      apply try_except_Ok. db_step.
      erewrite bind_Ok by (by apply offset_limit_Ok). reflexivity. }
    split_and!.
    + rewrite length_take. lia.
    + intros a Ha. apply subseteq_take, subseteq_drop in Ha.
      by rewrite sort_by_perm in Ha.
    + apply page_sorted.
      eapply StronglySorted_weaken; [|apply sort_by_sorted]. cbn. intros; lia.
  - intros Hneg. unfold get_pending_approvals.
    erewrite try_except_Raised; cycle 1.
    { db_step. apply bind_Raised. by apply offset_limit_negative. }
    reflexivity.
Qed.

Lemma validated_Ok (p : PaginationParams.t) (s : Session) :
  1 ≤ PaginationParams.page p →
  1 ≤ PaginationParams.size p ≤ 100 →
  validated p s = (Ok p, s).
Proof.
  intros Hp [Hs1 Hs2]. unfold validated.
  destruct (Z.leb_spec 1 (PaginationParams.page p)); [|lia].
  destruct (Z.leb_spec 1 (PaginationParams.size p)); [|lia].
  by destruct (Z.leb_spec (PaginationParams.size p) 100); [|lia].
Qed.

(** X14: for a manager, the pages that [GET /approvals/pending] serves for
    a valid page size, from page 1 to the page count it reports, list
    every pending approval of that approver exactly once; the page count
    is the least number of pages of that size that hold them all. *)
Theorem pending_pages_cover (u : User.t) (size : Z) (s : Session) :
  User.is_active u = true →
  User.role u = UserRole.manager ∨ User.role u = UserRole.admin →
  1 ≤ size ≤ 100 →
  let mine_pending :=
    filter (λ a, Approval.approver_id a = User.id u
                 ∧ Approval.status a = ApprovalStatus.pending)
           (approvals (working s)) in
  ∃ (items : nat → list Approval.t) (pages : nat),
    (∀ p : nat,
       api_approvals.get_pending_approvals u
         (PaginationParams.mk (Z.of_nat (S p)) size) s
       = (Ok (PaginatedResponse.mk (items p) (length mine_pending)
                (Z.of_nat (S p)) size (Z.of_nat pages)), s))
    ∧ mjoin (map items (seq 0 pages)) ≡ₚ mine_pending
    ∧ size * (Z.of_nat pages - 1) < Z.of_nat (length mine_pending)
      ≤ size * Z.of_nat pages.
Proof.
  intros Ha Hr Hsize mine_pending.
  set (query := sort_by (λ a, - Approval.created_at a) mine_pending).
  set (n := Z.to_nat size).
  set (total := length mine_pending).
  assert (Hpages : 0 ≤ (Z.of_nat total + size - 1) / size)
    by (apply Z.div_pos; lia).
  exists (λ p, take n (drop (p * n) query)),
         (Z.to_nat ((Z.of_nat total + size - 1) / size)).
  assert (Hdiv : size * ((Z.of_nat total + size - 1) / size - 1)
                 < Z.of_nat total
                 ≤ size * ((Z.of_nat total + size - 1) / size)).
  { pose proof (Z.div_mod (Z.of_nat total + size - 1) size ltac:(lia)).
    pose proof (Z.mod_pos_bound (Z.of_nat total + size - 1) size ltac:(lia)).
    lia. }
  split; [|split].
  - intros p. unfold api_approvals.get_pending_approvals.
    erewrite bind_Ok by (by apply manager_or_admin_Ok).
    erewrite bind_Ok by (apply validated_Ok; cbn; lia).
    cbv beta iota. apply try_except_Ok.
    cbn [PaginationParams.page PaginationParams.size].
    erewrite bind_Ok; cycle 1.
    { unfold get_pending_approvals. apply try_except_Ok. db_step.
      erewrite bind_Ok by (apply offset_limit_Ok; lia). reflexivity. }
    cbv beta iota. rewrite Z2Nat.id by done.
    replace (Z.of_nat (S p) - 1) with (Z.of_nat p) by lia.
    rewrite Z2Nat.inj_mul, Nat2Z.id by lia. reflexivity.
  - rewrite pages_concat, take_ge.
    + apply sort_by_perm.
    + subst query. rewrite sort_by_perm. fold total. subst n. nia.
  - rewrite Z2Nat.id by done. exact Hdiv.
Qed.

(** X15: for every approver, the pending listing and the history listing
    count each of the approver's approvals once: the two totals add up to
    the number of approvals assigned to that approver. *)
Theorem pending_and_history_totals (approver : User.t)
    (limit offset limit' offset' : Z) (s : Session) :
  0 ≤ offset → 0 ≤ limit → 0 ≤ offset' → 0 ≤ limit' →
  ∃ pending_items history_items (total_pending total_history : nat),
    get_pending_approvals approver limit offset s
    = (Ok (pending_items, total_pending), s)
    ∧ get_approval_history approver limit' offset' s
      = (Ok (history_items, total_history), s)
    ∧ (total_pending + total_history
       = length (filter (λ a, Approval.approver_id a = User.id approver)
                        (approvals (working s))))%nat
    ∧ (∀ a, a ∈ history_items →
            a ∈ approvals (working s)
            ∧ Approval.approver_id a = User.id approver
            ∧ Approval.status a ≠ ApprovalStatus.pending).
Proof.
  intros Ho Hl Ho' Hl'. eexists _, _, _, _. split_and!.
  - unfold get_pending_approvals. apply try_except_Ok. db_step.
    erewrite bind_Ok by (by apply offset_limit_Ok). reflexivity.
  - unfold get_approval_history. apply try_except_Ok. db_step.
    erewrite bind_Ok by (by apply offset_limit_Ok). reflexivity.
  - induction (approvals (working s)) as [|a l IH]; [done|].
    rewrite !filter_cons.
    destruct (decide (Approval.approver_id a = User.id approver)) as [Ha|Ha],
             (decide (Approval.status a = ApprovalStatus.pending)) as [Hp|Hp].
    all: repeat first [rewrite decide_True by tauto
                      |rewrite decide_False by tauto].
    all: cbn [length]; lia.
  - intros a Ha. apply subseteq_take, subseteq_drop in Ha.
    assert (a ∈ filter (λ a, Approval.approver_id a = User.id approver
                              ∧ Approval.status a ≠ ApprovalStatus.pending)
                       (approvals (working s))) as Hin.
    { apply elem_of_app in Ha as [Ha|Ha].
      - by apply list_elem_of_filter in Ha as [_ Ha].
      - rewrite sort_by_perm in Ha.
        by apply list_elem_of_filter in Ha as [_ Ha]. }
    apply list_elem_of_filter in Hin as [[? ?] ?]. done.
Qed.

(** X16: [GET /approvals/{approval_id}] refuses an employee who neither
    submitted the expense nor is the approver, with 403; it shows the
    approval to every other active user, whatever their company. *)
Theorem get_approval_access (s : Session) (a : Approval.t) (e : Expense.t)
    (u : User.t) :
  User.is_active u = true →
  NoDup (map Approval.id (approvals (working s))) →
  a ∈ approvals (working s) →
  NoDup (map Expense.id (expenses (working s))) →
  e ∈ expenses (working s) →
  Expense.id e = Approval.expense_id a →
  (User.role u = UserRole.employee →
   Expense.user_id e ≠ User.id u →
   Approval.approver_id a ≠ User.id u →
   api_approvals.get_approval (Approval.id a) u s
   = (Raised (HTTPException 403 "Access denied"), s))
  ∧ (User.role u ≠ UserRole.employee
     ∨ Expense.user_id e = User.id u
     ∨ Approval.approver_id a = User.id u →
     api_approvals.get_approval (Approval.id a) u s = (Ok a, s)).
Proof.
  intros Hact Hpk Hrow Hepk He Heid.
  pose proof (expense_of_approval _ a e Hepk He Heid) as Hload.
  split.
  - intros Hrole Howner Happrover.
    unfold api_approvals.get_approval, get_current_active_user.
    rewrite Hact. cbn [negb]. db_step. unfold http_errors.
    erewrite try_except_Raised; cycle 1.
    { db_step. rewrite (filter_unique_row Approval.id _ _ a); [|done..].
      db_step. rewrite bool_decide_eq_true_2 by done. rewrite Hload. db_step.
      by rewrite !bool_decide_eq_true_2. }
    reflexivity.
  - intros Hok.
    unfold api_approvals.get_approval, get_current_active_user.
    rewrite Hact. cbn [negb]. db_step. unfold http_errors.
    apply try_except_Ok. db_step.
    rewrite (filter_unique_row Approval.id _ _ a); [|done..]. db_step.
    case_bool_decide as Hrole; [|done].
    rewrite Hload. db_step.
    destruct Hok as [Hok|[Hok|Hok]]; [done| |].
    + by rewrite (bool_decide_eq_false_2 (Expense.user_id e ≠ User.id u))
        by (intros H; by apply H).
    + rewrite (bool_decide_eq_false_2
                 (Approval.approver_id a ≠ User.id u))
        by (intros H; by apply H).
      by rewrite andb_false_r.
Qed.

(** X17: the statistics count every approval of the window once: the
    processed total is the number of approved plus rejected plus pending
    approvals created in the window, and without a window it is the sum
    of the three counts that are reported. *)
Theorem statistics_total (approver : User.t)
    (start_date end_date : option datetime) (s : Session) :
  ∃ st,
    get_approval_statistics approver start_date end_date s = (Ok st, s)
    ∧ (total_processed st
       = approved st + rejected st
         + length (filter (λ a, date_filter approver start_date end_date a
                                ∧ Approval.status a = ApprovalStatus.pending)
                          (approvals (working s))))%nat
    ∧ (start_date = None → end_date = None →
       total_processed st = (approved st + rejected st + pending st)%nat).
Proof.
  eexists. split; [reflexivity|].
  cbn [approved rejected total_processed pending].
  rewrite status_counts_sum, !status_counts_lookup.
  rewrite count_status_total. unfold count_status.
  rewrite !list_filter_filter. split.
  - do 2 f_equal. apply list_filter_iff. intros a. tauto.
  - intros -> ->. do 2 f_equal. apply list_filter_iff. intros a.
    unfold date_filter. tauto.
Qed.

(** ** Rule resolution and workflow creation *)

(** X18: [_get_approval_rules] returns the active rules of the category
    and the company, each once, in ascending [order_index]; sorting its
    result by [order_index] again, as [create_approval_workflow] does,
    changes nothing. *)
Theorem rules_resolved (category_id company_id : UUID) (s : Session) :
  ∃ rules,
    _get_approval_rules category_id company_id s = (Ok rules, s)
    ∧ rules ≡ₚ filter (λ r, ApprovalRule.category_id r = Some category_id
                           ∧ ApprovalRule.company_id r = company_id
                           ∧ ApprovalRule.is_active r = true)
                      (approval_rules (working s))
    ∧ StronglySorted (λ r1 r2, ApprovalRule.order_index r1
                               ≤ ApprovalRule.order_index r2) rules
    ∧ sort_by ApprovalRule.order_index rules = rules.
Proof.
  eexists. split; [reflexivity|]. split_and!.
  - apply sort_by_perm.
  - apply sort_by_sorted.
  - apply sort_by_sorted_id, sort_by_sorted.
Qed.







(** ** The overdue sweep when a commit fails, and the periodic task *)




(** ** [app/api/expenses.py] *)








(** X23: [POST /expenses/{expense_id}/submit] answers 404 for an expense
    that another user submitted or that belongs to another company, and
    400 for an expense of the user that is not a draft; in both cases
    nothing is written. *)
Theorem submit_refusals (s : Session) (e : Expense.t) (u : User.t)
    (now : datetime) :
  User.is_active u = true →
  NoDup (map Expense.id (expenses (working s))) →
  e ∈ expenses (working s) →
  (Expense.company_id e ≠ User.company_id u
   ∨ Expense.user_id e ≠ User.id u →
   api_expenses.submit_expense (Expense.id e) u now s
   = (Raised (HTTPException 404 "Expense not found"), s))
  ∧ (Expense.company_id e = User.company_id u →
     Expense.user_id e = User.id u →
     Expense.status e ≠ ExpenseStatus.draft →
     api_expenses.submit_expense (Expense.id e) u now s
     = (Raised (HTTPException 400 "Expense is not in draft status"), s)).
Proof.
  intros Hact Hepk He. split.
  - intros Hforeign.
    unfold api_expenses.submit_expense, get_current_active_user.
    rewrite Hact. cbn [negb]. db_step.
    erewrite try_except_Raised; cycle 1.
    { db_step. rewrite filter_none; [by db_step|].
      intros x Hx (Hid & Hc & Hu).
      assert (x = e) as ->
        by by apply (unique_key Expense.id (expenses (working s))).
      by destruct Hforeign. }
    reflexivity.
  - intros Hc Hu Hst.
    unfold api_expenses.submit_expense, get_current_active_user.
    rewrite Hact. cbn [negb]. db_step.
    erewrite try_except_Raised; cycle 1.
    { db_step. rewrite (filter_unique_row Expense.id _ _ e);
        [|done..|by intros x [? _]].
      db_step. by rewrite bool_decide_eq_true_2. }
    reflexivity.
Qed.


(** ** The properties on the sample data *)

(** The rows of a list that is written out, one after the other. *)
Ltac each_row H :=
  repeat (apply elem_of_cons in H as [->|H]); try (by inversion H).

Lemma compulsory_veto_witness :
  _calculate_expense_status (Some sample_expense) approved_then_rejected
  = (Ok ExpenseStatus.rejected, approved_then_rejected).
Proof.
  apply (compulsory_veto approved_then_rejected sample_expense
           [ sample_approval 1 100 ApprovalStatus.approved;
             sample_approval 2 101 ApprovalStatus.rejected ] []).
  - vm_compute. reflexivity.
  - exists (sample_approval 2 101 ApprovalStatus.rejected).
    split; [right; left|reflexivity].
  - intros a Ha. each_row Ha; discriminate.
Defined.

Lemma compulsory_blocking_witness :
  _calculate_expense_status (Some sample_expense) all_pending
  = (Ok ExpenseStatus.pending, all_pending).
Proof.
  apply (compulsory_blocking all_pending sample_expense
           [ sample_approval 1 100 ApprovalStatus.pending ]
           [ sample_approval 2 201 ApprovalStatus.pending;
             sample_approval 3 202 ApprovalStatus.pending ]).
  - vm_compute. reflexivity.
  - exists (sample_approval 1 100 ApprovalStatus.pending).
    split; [left|reflexivity].
  - intros a Ha. each_row Ha; discriminate.
Defined.

Lemma approvals_without_rules_approve_witness :
  _calculate_expense_status (Some sample_expense) rejected_without_rules
  = (Ok ExpenseStatus.approved, rejected_without_rules).
Proof.
  apply (approvals_without_rules_approve rejected_without_rules
           sample_expense).
  - vm_compute. discriminate.
  - intros a r _ Hr. vm_compute in Hr. by inversion Hr.
Defined.

Lemma unanimous_approval_witness :
  _calculate_expense_status (Some sample_expense) all_approved
  = (Ok ExpenseStatus.approved, all_approved).
Proof.
  apply (unanimous_approval all_approved sample_expense).
  - vm_compute. discriminate.
  - intros a Ha.
    change (a ∈ [ sample_approval 1 100 ApprovalStatus.approved;
                  sample_approval 2 201 ApprovalStatus.approved ]) in Ha.
    each_row Ha; reflexivity.
Defined.

Lemma no_necessary_approval_rejects_witness :
  _calculate_expense_status (Some sample_expense) necessary_undecided
  = (Ok ExpenseStatus.rejected, necessary_undecided).
Proof.
  apply (no_necessary_approval_rejects necessary_undecided sample_expense
           [ sample_approval 1 100 ApprovalStatus.approved ]
           [ sample_approval 2 201 ApprovalStatus.pending;
             sample_approval 3 202 ApprovalStatus.pending ]).
  - vm_compute. reflexivity.
  - intros a Ha. each_row Ha; reflexivity.
  - discriminate.
  - intros a Ha. each_row Ha; discriminate.
Defined.

Lemma decision_stores_aggregate_witness :
  ∃ s1 e',
    process_approval 1 ApprovalStatus.approved None (sample_user 100) 50
      all_pending
    = (Ok (true, None), s1)
    ∧ filter (λ x, Expense.id x = 500) (expenses (committed s1)) = [e']
    ∧ e' = Expense.set_status (Expense.status e') sample_expense
    ∧ _calculate_expense_status (Some e') s1 = (Ok (Expense.status e'), s1).
Proof.
  apply (decision_stores_aggregate all_pending
           (sample_approval 1 100 ApprovalStatus.pending) (sample_user 100)
           sample_expense ApprovalStatus.approved None 50).
  - reflexivity.
  - apply (bool_decide_unpack _). vm_compute. exact I.
  - vm_compute. reflexivity.
  - apply (bool_decide_unpack _). vm_compute. exact I.
  - left.
  - reflexivity.
  - reflexivity.
  - left.
  - reflexivity.
Defined.

Lemma decision_commit_failures_witness :
  (∃ s1,
     process_approval 1 ApprovalStatus.approved None (sample_user 100) 50
       (failing_after 0)
     = (Ok (false, Some "connection to server was lost"), s1)
     ∧ committed s1 = committed (failing_after 0)
     ∧ working s1 = committed (failing_after 0))
  ∧ (∃ s1,
       process_approval 1 ApprovalStatus.approved None (sample_user 100) 50
         (failing_after 1)
       = (Ok (false, Some "connection to server was lost"), s1)
       ∧ filter (λ x, Approval.id x = 1) (approvals (committed s1))
         = [Approval.mk 1 500 100 ApprovalStatus.approved None (Some 50) 0]
       ∧ expenses (committed s1) = [sample_expense])
  ∧ (∃ s1 e',
       process_approval 1 ApprovalStatus.approved None (sample_user 100) 50
         (failing_after 2)
       = (Ok (false, Some "connection to server was lost"), s1)
       ∧ filter (λ x, Approval.id x = 1) (approvals (committed s1))
         = [Approval.mk 1 500 100 ApprovalStatus.approved None (Some 50) 0]
       ∧ filter (λ x, Expense.id x = 500) (expenses (committed s1)) = [e']
       ∧ _calculate_expense_status (Some e') s1
         = (Ok (Expense.status e'), s1)).
Proof.
  assert (Hpk : ∀ n,
    NoDup (map Approval.id (approvals (working (failing_after n))))).
  { intros n. apply (bool_decide_unpack _). vm_compute. exact I. }
  assert (Hepk : ∀ n,
    NoDup (map Expense.id (expenses (working (failing_after n))))).
  { intros n. apply (bool_decide_unpack _). vm_compute. exact I. }
  split_and!.
  - apply (decision_commit_failures (failing_after 0)
             (sample_approval 1 100 ApprovalStatus.pending) (sample_user 100)
             sample_expense ApprovalStatus.approved None 50 []);
      [apply Hpk|vm_compute; reflexivity|apply Hepk|left|reflexivity
      |reflexivity|left|reflexivity|reflexivity].
  - apply (decision_commit_failures (failing_after 1)
             (sample_approval 1 100 ApprovalStatus.pending) (sample_user 100)
             sample_expense ApprovalStatus.approved None 50 []);
      [apply Hpk|vm_compute; reflexivity|apply Hepk|left|reflexivity
      |reflexivity|left|reflexivity|reflexivity].
  - apply (decision_commit_failures (failing_after 2)
             (sample_approval 1 100 ApprovalStatus.pending) (sample_user 100)
             sample_expense ApprovalStatus.approved None 50 []);
      [apply Hpk|vm_compute; reflexivity|apply Hepk|left|reflexivity
      |reflexivity|left|reflexivity|reflexivity].
Defined.

Lemma decision_outcomes_witness :
  ∃ r s1,
    process_approval 1 ApprovalStatus.rejected None (sample_user 100) 50
      (failing_after 1)
    = (Ok r, s1)
    ∧ working s1 = committed s1
    ∧ (r.1 = true →
       approvals (committed s1)
       = [ Approval.mk 1 500 100 ApprovalStatus.rejected None (Some 50) 0;
           sample_approval 2 201 ApprovalStatus.pending;
           sample_approval 3 202 ApprovalStatus.pending ]).
Proof.
  destruct (decision_outcomes (failing_after 1)
              (sample_approval 1 100 ApprovalStatus.pending) (sample_user 100)
              sample_expense ApprovalStatus.rejected None 50)
    as (r & s1 & Hrun & Hwc & _ & Hr & _).
  - reflexivity.
  - apply (bool_decide_unpack _). vm_compute. exact I.
  - vm_compute. reflexivity.
  - apply (bool_decide_unpack _). vm_compute. exact I.
  - left.
  - reflexivity.
  - reflexivity.
  - left.
  - reflexivity.
  - exists r, s1. split_and!; [exact Hrun|exact Hwc|exact Hr].
Defined.

Lemma employees_are_refused_witness :
  api_approvals.approve_expense 1 None sample_employee 50 all_pending
  = (Raised (HTTPException 403 "Manager or admin access required"),
     all_pending).
Proof.
  apply (employees_are_refused sample_employee all_pending); reflexivity.
Defined.

Lemma bulk_endpoints_account_witness :
  ∃ resp s',
    api_approvals.bulk_approve_expenses [1; 2; 99] None (sample_user 100) 50
      all_pending
    = (Ok resp, s')
    ∧ map BulkResult.approval_id (BulkResponse.results resp) = [1; 2; 99]
    ∧ Z.of_nat (BulkResponse.successful resp) + BulkResponse.failed resp = 3.
Proof.
  destruct (bulk_endpoints_account (sample_user 100) [1; 2; 99] None 50
              all_pending)
    as [(resp & s' & Hrun & Hids & Htotal & _ & _ & Hsum) _].
  - reflexivity.
  - by left.
  - exists resp, s'. split_and!; [exact Hrun|exact Hids|].
    rewrite Hsum, Htotal. reflexivity.
Defined.

Lemma not_the_approver_witness :
  api_approvals.approve_expense 2 None (sample_user 100) 50 all_pending
  = (Raised (HTTPException 400 "Approval not found or access denied"),
     all_pending).
Proof.
  apply (not_the_approver (sample_user 100) 2 all_pending).
  - reflexivity.
  - by left.
  - intros a Ha.
    change (a ∈ [ sample_approval 1 100 ApprovalStatus.pending;
                  sample_approval 2 201 ApprovalStatus.pending;
                  sample_approval 3 202 ApprovalStatus.pending ]) in Ha.
    each_row Ha; intros [H1 H2]; discriminate.
Defined.


Lemma pending_page_witness :
  ∃ items,
    get_pending_approvals (sample_user 100) 2 1 listing
    = (Ok (items, 3%nat), listing)
    ∧ (length items ≤ 2)%nat
    ∧ StronglySorted (λ a b, Approval.created_at b ≤ Approval.created_at a)
                     items.
Proof.
  destruct (proj1 (pending_page (sample_user 100) 2 1 listing))
    as (items & Hrun & Hlen & _ & Hsorted); [lia|lia|].
  exists items. split_and!; [exact Hrun|exact Hlen|exact Hsorted].
Defined.

Lemma pending_pages_cover_witness :
  ∃ (items : nat → list Approval.t) (pages : nat),
    (∀ p : nat,
       api_approvals.get_pending_approvals (sample_user 100)
         (PaginationParams.mk (Z.of_nat (S p)) 2) listing
       = (Ok (PaginatedResponse.mk (items p) 3 (Z.of_nat (S p)) 2
                (Z.of_nat pages)), listing))
    ∧ mjoin (map items (seq 0 pages))
      ≡ₚ [ Approval.mk 1 500 100 ApprovalStatus.pending None None (1 * day);
           Approval.mk 2 501 100 ApprovalStatus.pending None None (3 * day);
           Approval.mk 3 502 100 ApprovalStatus.pending None None (2 * day) ]
    ∧ pages = 2%nat.
Proof.
  destruct (pending_pages_cover (sample_user 100) 2 listing)
    as (items & pages & Hrun & Hperm & Hpages); [reflexivity|by left|lia|].
  exists items, pages. split_and!; [exact Hrun|exact Hperm|].
  change (2 * (Z.of_nat pages - 1) < 3 ≤ 2 * Z.of_nat pages) in Hpages. lia.
Defined.

Lemma pending_and_history_totals_witness :
  ∃ pending_items history_items (total_pending total_history : nat),
    get_pending_approvals (sample_user 100) 20 0 listing
    = (Ok (pending_items, total_pending), listing)
    ∧ get_approval_history (sample_user 100) 20 0 listing
      = (Ok (history_items, total_history), listing)
    ∧ (total_pending + total_history = 5)%nat.
Proof.
  destruct (pending_and_history_totals (sample_user 100) 20 0 20 0 listing)
    as (p & h & tp & th & Hp & Hh & Hsum & _); [lia..|].
  exists p, h, tp, th. split_and!; [exact Hp|exact Hh|exact Hsum].
Defined.

Lemma get_approval_access_witness :
  api_approvals.get_approval 1 sample_employee listing
  = (Raised (HTTPException 403 "Access denied"), listing)
  ∧ api_approvals.get_approval 4 (User.mk 8 2 UserRole.employee true) listing
    = (Ok (Approval.mk 4 503 100 ApprovalStatus.approved None
             (Some (5 * day)) (4 * day)), listing).
Proof.
  assert (Hpk : NoDup (map Approval.id (approvals (working listing)))).
  { apply (bool_decide_unpack _). vm_compute. exact I. }
  assert (Hepk : NoDup (map Expense.id (expenses (working listing)))).
  { apply (bool_decide_unpack _). vm_compute. exact I. }
  split.
  - apply (proj1 (get_approval_access listing
                    (Approval.mk 1 500 100 ApprovalStatus.pending None None
                       (1 * day))
                    sample_expense sample_employee
                    eq_refl Hpk ltac:(left) Hepk ltac:(left) eq_refl));
      [reflexivity|discriminate|discriminate].
  - apply (proj2 (get_approval_access listing
                    (Approval.mk 4 503 100 ApprovalStatus.approved None
                       (Some (5 * day)) (4 * day))
                    (Expense.mk 503 2 8 10 "lunch" ExpenseStatus.draft)
                    (User.mk 8 2 UserRole.employee true)
                    eq_refl Hpk ltac:(do 3 right; left) Hepk
                    ltac:(do 3 right; left) eq_refl)).
    right; left. reflexivity.
Defined.

Lemma statistics_total_witness :
  ∃ st,
    get_approval_statistics (sample_user 100) None None two_old_approvals
    = (Ok st, two_old_approvals)
    ∧ total_processed st = (approved st + rejected st + pending st)%nat.
Proof.
  destruct (statistics_total (sample_user 100) None None two_old_approvals)
    as (st & Hrun & _ & Hsum).
  exists st. split; [exact Hrun|by apply Hsum].
Defined.





Lemma submit_refusals_witness :
  api_expenses.submit_expense 503 (sample_user 7) 50 listing
  = (Raised (HTTPException 404 "Expense not found"), listing)
  ∧ api_expenses.submit_expense 500 (sample_user 7) 50 listing
    = (Raised (HTTPException 400 "Expense is not in draft status"), listing).
Proof.
  assert (Hepk : NoDup (map Expense.id (expenses (working listing)))).
  { apply (bool_decide_unpack _). vm_compute. exact I. }
  split.
  - apply (proj1 (submit_refusals listing
                    (Expense.mk 503 2 8 10 "lunch" ExpenseStatus.draft)
                    (sample_user 7) 50 eq_refl Hepk
                    ltac:(do 3 right; left))).
    left. discriminate.
  - apply (proj2 (submit_refusals listing sample_expense (sample_user 7) 50
                    eq_refl Hepk ltac:(left)));
      [reflexivity|reflexivity|discriminate].
Defined.


(** ** Users who are not active, and the commits of the helpers *)



(** X26: [create_notification] and [log_action] end the transaction of
    their caller.  When their commit passes, everything the caller had
    written and not committed is committed with the new row; when it
    fails, everything the caller had written and not committed is rolled
    back with it, and the error is raised again. *)
Theorem helpers_end_the_transaction (s : Session) (fs : list bool)
    (user_id company_id resource_id : UUID) (type : NotificationType.t)
    (title message resource_type : string) (action : AuditAction.t) :
  (head (faults s) ≠ Some true →
   uq_approvals_expense_approver (approvals (working s)) = true →
   (∃ n s', create_notification user_id type title message s = (Ok n, s')
            ∧ committed s' = working s'
            ∧ approvals (committed s') = approvals (working s)
            ∧ expenses (committed s') = expenses (working s)
            ∧ notifications (committed s') = notifications (working s) ++ [n])
   ∧ (∃ l s', log_action company_id user_id action resource_type resource_id s
              = (Ok l, s')
              ∧ committed s' = working s'
              ∧ approvals (committed s') = approvals (working s)
              ∧ expenses (committed s') = expenses (working s)
              ∧ audit_logs (committed s') = audit_logs (working s) ++ [l]))
  ∧ (faults s = true :: fs →
     (∃ s', create_notification user_id type title message s
            = (Raised OperationalError, s')
            ∧ working s' = committed s ∧ committed s' = committed s)
     ∧ (∃ s', log_action company_id user_id action resource_type resource_id s
              = (Raised OperationalError, s')
              ∧ working s' = committed s ∧ committed s' = committed s)).
Proof.
  split.
  - intros Hf Hu. split; eexists _, _.
    + by rewrite create_notification_passes.
    + by rewrite log_action_passes.
  - intros Hf. split; eexists.
    + by erewrite create_notification_fails.
    + by erewrite log_action_fails.
Qed.

Lemma helpers_end_the_transaction_witness :
  ∃ s',
    log_action 1 100 AuditAction.update "expense" 500
      (mkSession (working all_pending)
         (with_expenses (λ _, [draft_expense]) (working all_pending))
         [true] 1000)
    = (Raised OperationalError, s')
    ∧ working s' = working all_pending.
Proof.
  destruct (proj2 (helpers_end_the_transaction
                     (mkSession (working all_pending)
                        (with_expenses (λ _, [draft_expense])
                           (working all_pending))
                        [true] 1000)
                     [] 100 1 500 NotificationType.overdue_approval "" ""
                     "expense" AuditAction.update) eq_refl)
    as [_ (s' & Hrun & Hw & _)].
  exists s'. split; [exact Hrun|exact Hw].
Defined.
